(** * pws_exporter: the interception subsystem

    A shallow embedding of the Go sources of pws_exporter and the proofs of
    its specification:

    - package [wu]       the Weather Underground submission endpoint, the
                         measurement decoder and the unit conversions;
    - package [dns]      the answering / forwarding / blackholing responder;
    - package [exporter] the metrics sink and the orchestrator.

    Go's [float32] and [float64] are IEEE 754 binary32 and binary64, modelled
    with the Standard Library's [spec_float] at precision 24 and 53.  Go maps
    are finite maps ([gmap]), Go sets ([map[string]struct{}]) finite sets
    ([gset]).  What a handler sends to its peer or starts in the background
    is returned as a list of effects, in program order.  The standard and
    third-party library functions the sources call ([time.ParseInLocation],
    [strconv.ParseFloat], [net.ParseIP], the DNS client's [Exchange]) are
    section variables: every theorem holds for whatever they return.  Closed
    examples instantiate them with the small executable instances of the
    first part of the file. *)

From Stdlib Require Import ZArith String Ascii List Bool Lia.
From Stdlib Require Import Floats.SpecFloat.
From stdpp Require Import gmap strings list.

Local Open Scope string_scope.

(** Go's [error] values are compared by the sources only against [nil];
    they are modelled by their message. *)
Definition error : Type := string.

(* ===================================================================== *)
(** * IEEE 754 arithmetic                                                 *)
(* ===================================================================== *)

Definition float32 : Type := spec_float.
Definition float64 : Type := spec_float.

Module F32.
Definition prec : Z := 24.
Definition emax : Z := 128.

Definition zero : float32 := S754_zero false.
Definition add : float32 -> float32 -> float32 := SFadd prec emax.
Definition sub : float32 -> float32 -> float32 := SFsub prec emax.
Definition mul : float32 -> float32 -> float32 := SFmul prec emax.
Definition div : float32 -> float32 -> float32 := SFdiv prec emax.

(** The binary32 value nearest to the rational [n / d] (ties to even):
    what the Go compiler does to an untyped constant used at type
    [float32], and what [strconv.ParseFloat (_, 32)] does to a decimal. *)
Definition of_ratio (n : Z) (d : positive) : float32 :=
  match n with
  | Z0 => S754_zero false
  | Zpos p => SFdiv prec emax (S754_finite false p 0) (S754_finite false d 0)
  | Zneg p => SFdiv prec emax (S754_finite true p 0) (S754_finite false d 0)
  end.

(** [float32(x)] for [x : float64]: rounds to nearest even. *)
Definition of_f64 (x : float64) : float32 :=
  match x with
  | S754_finite s m e => binary_round prec emax s m e
  | _ => x
  end.
End F32.

Module F64.
Definition prec : Z := 53.
Definition emax : Z := 1024.

Definition zero : float64 := S754_zero false.
Definition add : float64 -> float64 -> float64 := SFadd prec emax.
Definition ltb : float64 -> float64 -> bool := SFltb.

(** [float64(x)] for [x : float32]: exact, the mantissa is re-aligned. *)
Definition of_f32 (x : float32) : float64 :=
  match x with
  | S754_finite s m e => binary_round prec emax s m e
  | _ => x
  end.
End F64.

(* ===================================================================== *)
(** * Go library types and executable instances                           *)
(* ===================================================================== *)

(** ** net/url: [url.Values] is [map[string][]string] *)
Module url.
Abbreviation Values := (gmap string (list string)).

(** [Values.Get]: the first value of the key, or the empty string. *)
Definition Get (v : Values) (key : string) : string :=
  match v !! key with
  | Some (x :: _) => x
  | _ => ""
  end.

(** [Values.Has]: whether the key is set. *)
Definition Has (v : Values) (key : string) : bool :=
  match v !! key with
  | Some _ => true
  | None => false
  end.
End url.

(** ** time: UTC wall-clock times, and the layout parser *)
Module GoTime.
Record Time := mkTime {
  Year : Z; Month : Z; Day : Z;
  Hour : Z; Minute : Z; Second : Z; Nanosecond : Z
}.

(** [Time{}], January 1 of year 1, 00:00:00 UTC. *)
Definition zeroTime : Time := mkTime 1 1 1 0 0 0 0.

Definition isDigit (c : ascii) : bool :=
  let n := nat_of_ascii c in (48 <=? n)%nat && (n <=? 57)%nat.

Definition digit (c : ascii) : Z := Z.of_nat (nat_of_ascii c) - 48.

Definition isSpace (c : ascii) : bool := Ascii.eqb c " ".

Fixpoint cutspace (s : string) : string :=
  match s with
  | String c s' => if isSpace c then cutspace s' else s
  | EmptyString => s
  end.

(** [skip]: the literal text of the layout must match the value; a space
    of the layout stands for any run of spaces, or the end of the value. *)
Fixpoint skip_fuel (fuel : nat) (value prefix : string) : option string :=
  match prefix with
  | EmptyString => Some value
  | String p prefix' =>
      if isSpace p then
        match value with
        | String v _ =>
            if isSpace v then
              match fuel with
              | O => None
              | S fuel' => skip_fuel fuel' (cutspace value) (cutspace prefix)
              end
            else None
        | EmptyString =>
            match fuel with
            | O => None
            | S fuel' => skip_fuel fuel' (cutspace value) (cutspace prefix)
            end
        end
      else
        match value with
        | String v value' =>
            if Ascii.eqb v p then
              match fuel with
              | O => None
              | S fuel' => skip_fuel fuel' value' prefix'
              end
            else None
        | EmptyString => None
        end
  end.

Definition skip (value prefix : string) : option string :=
  skip_fuel (S (String.length prefix)) value prefix.

(** [getnum]: one or two digits; two are required when [fixed]. *)
Definition getnum (s : string) (fixed : bool) : option (Z * string) :=
  match s with
  | String a s1 =>
      if isDigit a then
        match s1 with
        | String b s2 =>
            if isDigit b then Some (digit a * 10 + digit b, s2)%Z
            else if fixed then None else Some (digit a, s1)
        | EmptyString => if fixed then None else Some (digit a, s1)
        end
      else None
  | EmptyString => None
  end.

(** The four-digit year of [stdLongYear]. *)
Definition getyear (s : string) : option (Z * string) :=
  match s with
  | String a (String b (String c (String d rest))) =>
      if isDigit a && isDigit b && isDigit c && isDigit d
      then Some (digit a * 1000 + digit b * 100 + digit c * 10 + digit d, rest)%Z
      else None
  | _ => None
  end.

(** The digits of a fractional second: at most nine are kept. *)
Fixpoint takeDigits (s : string) : list Z * string :=
  match s with
  | String c s' =>
      if isDigit c then let '(ds, r) := takeDigits s' in (digit c :: ds, r)
      else ([], s)
  | EmptyString => ([], s)
  end.

Definition parseNanoseconds (ds : list Z) : Z :=
  let kept := take 9 ds in
  (fold_left (fun acc d => acc * 10 + d) kept 0 * 10 ^ Z.of_nat (9 - length kept))%Z.

Definition commaOrPeriod (c : ascii) : bool :=
  Ascii.eqb c "." || Ascii.eqb c ",".

(** A fractional second in the value is accepted after the seconds even
    though the layout has none. *)
Definition getfrac (s : string) : Z * string :=
  match s with
  | String c (String d _ as s1) =>
      if commaOrPeriod c && isDigit d
      then let '(ds, r) := takeDigits s1 in (parseNanoseconds ds, r)
      else (0%Z, s)
  | _ => (0%Z, s)
  end.

Definition isLeap (year : Z) : bool :=
  ((year mod 4 =? 0) && (negb (year mod 100 =? 0) || (year mod 400 =? 0)))%Z.

Definition daysIn (month year : Z) : Z :=
  if ((month =? 2)%Z && isLeap year) then 29%Z
  else match month with
       | 2 => 28
       | 4 | 6 | 9 | 11 => 30
       | _ => 31
       end%Z.

Definition inRange (lo x hi : Z) : bool := ((lo <=? x) && (x <? hi))%Z.

(** [ParseInLocation (layout, value, time.UTC)] at the one layout the
    decoder uses, ["2006-01-02 15:04:05"]: year, ["-"], two-digit month,
    ["-"], two-digit day, [" "], hour (one or two digits), [":"],
    two-digit minute, [":"], two-digit second, an optional fraction, and
    nothing else; then the day is checked against the month. *)
Definition parseDateTime (value : string) : option Time :=
  '(year, value) ← getyear value;
  value ← skip value "-";
  '(month, value) ← getnum value true;
  if negb (inRange 1 month 13) then None else
  value ← skip value "-";
  '(day, value) ← getnum value true;
  value ← skip value " ";
  '(hour, value) ← getnum value false;
  if negb (inRange 0 hour 24) then None else
  value ← skip value ":";
  '(min, value) ← getnum value true;
  if negb (inRange 0 min 60) then None else
  value ← skip value ":";
  '(sec, value) ← getnum value true;
  if negb (inRange 0 sec 60) then None else
  let '(nsec, value) := getfrac value in
  match value with
  | EmptyString =>
      if ((day <? 1) || (daysIn month year <? day))%Z then None
      else Some (mkTime year month day hour min sec nsec)
  | _ => None
  end.

Definition ParseInLocation (layout value : string) : Time * option error :=
  if String.eqb layout "2006-01-02 15:04:05" then
    match parseDateTime value with
    | Some t => (t, None)
    | None => (zeroTime, Some ("parsing time " ++ value))
    end
  else (zeroTime, Some "layout not covered").
End GoTime.

(** ** strconv: the plain decimal fragment of [ParseFloat] *)
Module strconv.
(** Digits with at most one point: the digits read as an integer, and the
    number of them after the point. *)
Fixpoint readDigits (s : string) (sawdot : bool) (mant : Z) (frac : nat)
  (sawdigits : bool) : option (Z * nat) :=
  match s with
  | EmptyString => if sawdigits then Some (mant, frac) else None
  | String c s' =>
      if GoTime.isDigit c then
        readDigits s' sawdot (mant * 10 + GoTime.digit c)%Z
          (if sawdot then S frac else frac) true
      else if Ascii.eqb c "." && negb sawdot then
        readDigits s' true mant frac sawdigits
      else None
  end.

Definition rounded (neg : bool) (mant : Z) (frac : nat) : float32 :=
  match mant with
  | Z0 => S754_zero neg
  | _ => F32.of_ratio (if neg then - mant else mant)
           (Z.to_pos (10 ^ Z.of_nat frac))
  end%Z.

(** [ParseFloat (s, 32)] on [[+-]ddd[.ddd]]: the nearest binary32, widened
    to [float64]; [ErrRange] on overflow, [ErrSyntax] on anything else.
    Exponents, hexadecimal mantissas, underscores, infinities and NaN are
    outside this fragment and no closed example below feeds them. *)
Definition ParseFloat (s : string) (bitSize : Z) : float64 * option error :=
  let '(neg, body) :=
    match s with
    | String "-" s' => (true, s')
    | String "+" s' => (false, s')
    | _ => (false, s)
    end in
  match readDigits body false 0 0 false with
  | None => (F64.zero, Some "invalid syntax")
  | Some (mant, frac) =>
      match rounded neg mant frac with
      | S754_infinity sg => (S754_infinity sg, Some "value out of range")
      | f => (F64.of_f32 f, None)
      end
  end.
End strconv.

(** ** net: the dotted-decimal fragment of [ParseIP] *)
Module net.
(** [net.IP] is a byte slice; [nil] is the empty list. *)
Definition IP : Type := list Z.

Fixpoint readOctets (s : string) (cur : option Z) (acc : list Z) : option (list Z) :=
  match s with
  | EmptyString =>
      match cur with
      | Some n => Some (acc ++ [n])%list
      | None => None
      end
  | String c s' =>
      if GoTime.isDigit c then
        match cur with
        | Some 0%Z => None
        | _ =>
            let n := (match cur with Some n => n * 10 | None => 0 end
                      + GoTime.digit c)%Z in
            if (255 <? n)%Z then None else readOctets s' (Some n) acc
        end
      else if Ascii.eqb c "." then
        match cur with
        | Some n => readOctets s' None (acc ++ [n])%list
        | None => None
        end
      else None
  end.

(** [ParseIP] on [d.d.d.d] (each field 0..255, no leading zero): the
    16-byte IPv4-in-IPv6 form [IPv4 (a, b, c, d)] that Go returns; [nil] on
    anything else (IPv6 text is outside this fragment and no closed example
    below feeds it). *)
Definition ParseIP (s : string) : IP :=
  match readOctets s None [] with
  | Some [a; b; c; d] => [0; 0; 0; 0; 0; 0; 0; 0; 0; 0; 255; 255; a; b; c; d]%Z
  | _ => []
  end.
End net.

(** The line feed that ends the bodies the endpoint writes. *)
Definition LF : string := String "010"%char EmptyString.

(* ===================================================================== *)
(** * Package wu: conversions, decoder, submission endpoint               *)
(* ===================================================================== *)

Module wu.
Import url.

Definition SubmissionPath : string := "/weatherstation/updateweatherstation.php".

(** [DeviceMeasurement] stores sensor data submitted to the API. *)
Record DeviceMeasurement := mkDM {
  DateUTC : GoTime.Time;
  RealTime : bool;
  RealTimeFreq : float32;
  WindDirection : float32;
  WindSpeed : float32;
  WindGust : float32;
  Humidity : float32;
  DewPoint : float32;
  Temperature : float32;
  RainPastHour : float32;
  RainToday : float32;
  Barometric : float32;
  IndoorTemp : float32;
  IndoorHumidity : float32
}.

(** [var dm DeviceMeasurement]: every field at its zero value. *)
Definition zeroDM : DeviceMeasurement :=
  mkDM GoTime.zeroTime false F32.zero F32.zero F32.zero F32.zero F32.zero
       F32.zero F32.zero F32.zero F32.zero F32.zero F32.zero F32.zero.

(** Field assignments [dm.X = v]. *)
Definition set_DateUTC (v : GoTime.Time) (d : DeviceMeasurement) :=
  mkDM v (RealTime d) (RealTimeFreq d) (WindDirection d) (WindSpeed d) (WindGust d)
    (Humidity d) (DewPoint d) (Temperature d) (RainPastHour d) (RainToday d)
    (Barometric d) (IndoorTemp d) (IndoorHumidity d).
Definition set_RealTime (v : bool) (d : DeviceMeasurement) :=
  mkDM (DateUTC d) v (RealTimeFreq d) (WindDirection d) (WindSpeed d) (WindGust d)
    (Humidity d) (DewPoint d) (Temperature d) (RainPastHour d) (RainToday d)
    (Barometric d) (IndoorTemp d) (IndoorHumidity d).
Definition set_RealTimeFreq (v : float32) (d : DeviceMeasurement) :=
  mkDM (DateUTC d) (RealTime d) v (WindDirection d) (WindSpeed d) (WindGust d)
    (Humidity d) (DewPoint d) (Temperature d) (RainPastHour d) (RainToday d)
    (Barometric d) (IndoorTemp d) (IndoorHumidity d).
Definition set_WindDirection (v : float32) (d : DeviceMeasurement) :=
  mkDM (DateUTC d) (RealTime d) (RealTimeFreq d) v (WindSpeed d) (WindGust d)
    (Humidity d) (DewPoint d) (Temperature d) (RainPastHour d) (RainToday d)
    (Barometric d) (IndoorTemp d) (IndoorHumidity d).
Definition set_WindSpeed (v : float32) (d : DeviceMeasurement) :=
  mkDM (DateUTC d) (RealTime d) (RealTimeFreq d) (WindDirection d) v (WindGust d)
    (Humidity d) (DewPoint d) (Temperature d) (RainPastHour d) (RainToday d)
    (Barometric d) (IndoorTemp d) (IndoorHumidity d).
Definition set_WindGust (v : float32) (d : DeviceMeasurement) :=
  mkDM (DateUTC d) (RealTime d) (RealTimeFreq d) (WindDirection d) (WindSpeed d) v
    (Humidity d) (DewPoint d) (Temperature d) (RainPastHour d) (RainToday d)
    (Barometric d) (IndoorTemp d) (IndoorHumidity d).
Definition set_Humidity (v : float32) (d : DeviceMeasurement) :=
  mkDM (DateUTC d) (RealTime d) (RealTimeFreq d) (WindDirection d) (WindSpeed d)
    (WindGust d) v (DewPoint d) (Temperature d) (RainPastHour d) (RainToday d)
    (Barometric d) (IndoorTemp d) (IndoorHumidity d).
Definition set_DewPoint (v : float32) (d : DeviceMeasurement) :=
  mkDM (DateUTC d) (RealTime d) (RealTimeFreq d) (WindDirection d) (WindSpeed d)
    (WindGust d) (Humidity d) v (Temperature d) (RainPastHour d) (RainToday d)
    (Barometric d) (IndoorTemp d) (IndoorHumidity d).
Definition set_Temperature (v : float32) (d : DeviceMeasurement) :=
  mkDM (DateUTC d) (RealTime d) (RealTimeFreq d) (WindDirection d) (WindSpeed d)
    (WindGust d) (Humidity d) (DewPoint d) v (RainPastHour d) (RainToday d)
    (Barometric d) (IndoorTemp d) (IndoorHumidity d).
Definition set_RainPastHour (v : float32) (d : DeviceMeasurement) :=
  mkDM (DateUTC d) (RealTime d) (RealTimeFreq d) (WindDirection d) (WindSpeed d)
    (WindGust d) (Humidity d) (DewPoint d) (Temperature d) v (RainToday d)
    (Barometric d) (IndoorTemp d) (IndoorHumidity d).
Definition set_RainToday (v : float32) (d : DeviceMeasurement) :=
  mkDM (DateUTC d) (RealTime d) (RealTimeFreq d) (WindDirection d) (WindSpeed d)
    (WindGust d) (Humidity d) (DewPoint d) (Temperature d) (RainPastHour d) v
    (Barometric d) (IndoorTemp d) (IndoorHumidity d).
Definition set_Barometric (v : float32) (d : DeviceMeasurement) :=
  mkDM (DateUTC d) (RealTime d) (RealTimeFreq d) (WindDirection d) (WindSpeed d)
    (WindGust d) (Humidity d) (DewPoint d) (Temperature d) (RainPastHour d)
    (RainToday d) v (IndoorTemp d) (IndoorHumidity d).
Definition set_IndoorTemp (v : float32) (d : DeviceMeasurement) :=
  mkDM (DateUTC d) (RealTime d) (RealTimeFreq d) (WindDirection d) (WindSpeed d)
    (WindGust d) (Humidity d) (DewPoint d) (Temperature d) (RainPastHour d)
    (RainToday d) (Barometric d) v (IndoorHumidity d).
Definition set_IndoorHumidity (v : float32) (d : DeviceMeasurement) :=
  mkDM (DateUTC d) (RealTime d) (RealTimeFreq d) (WindDirection d) (WindSpeed d)
    (WindGust d) (Humidity d) (DewPoint d) (Temperature d) (RainPastHour d)
    (RainToday d) (Barometric d) (IndoorTemp d) v.

(** ** Unit conversions.  The untyped constants take the type of the
    other operand, [float32], and the arithmetic is [float32]'s. *)

(** [ftoc] converts Fahrenheit to Celsius: [(f - 32) / 1.8]. *)
Definition ftoc (f : float32) : float32 :=
  F32.div (F32.sub f (F32.of_ratio 32 1)) (F32.of_ratio 18 10).

(** [inToMM] converts inches to millimeters: [f * 25.4]. *)
Definition inToMM (f : float32) : float32 :=
  F32.mul f (F32.of_ratio 254 10).

(** [mphToKPH] converts miles/hour to kilometers/hour: [f * 1.609344]. *)
Definition mphToKPH (f : float32) : float32 :=
  F32.mul f (F32.of_ratio 1609344 1000000).

(** [inHgToHPA] converts inches of mercury to hectopascals:
    [inHg * 33.8639]. *)
Definition inHgToHPA (inHg : float32) : float32 :=
  F32.mul inHg (F32.of_ratio 338639 10000).

(** The reference formulas of the specification, over [float32], with
    each decimal constant rounded to its nearest [float32]. *)
Module Reference.
Definition dec (n : Z) (d : positive) : float32 := F32.of_ratio n d.
Definition fahrenheit_to_celsius (F : float32) : float32 :=
  SFdiv 24 128 (SFsub 24 128 F (dec 32 1)) (dec 18 10).
Definition inches_to_millimeters (inches : float32) : float32 :=
  SFmul 24 128 inches (dec 254 10).
Definition mph_to_kmh (mph : float32) : float32 :=
  SFmul 24 128 mph (dec 1609344 1000000).
Definition inHg_to_hPa (inHg : float32) : float32 :=
  SFmul 24 128 inHg (dec 338639 10000).
End Reference.

(** The writes to the [http.ResponseWriter] and the goroutines started,
    in program order. *)
Inductive effect :=
| WriteHeader (statusCode : Z)
| WriteString (s : string)
| GoHandleSubmission (deviceID : string) (dm : DeviceMeasurement).

Definition StatusOK : Z := 200.
Definition StatusBadRequest : Z := 400.

(** [http.StatusText] at the two codes the endpoint uses. *)
Definition StatusText (code : Z) : string :=
  if (code =? 400)%Z then "Bad Request"
  else if (code =? 200)%Z then "OK" else "".

(** [http.Error (w, text, code)]: the status line, then the text and a
    line feed. *)
Definition http_Error (text : string) (code : Z) : list effect :=
  [WriteHeader code; WriteString (text ++ LF)].

(** What a client and the sink observe of a list of effects. *)
Definition status (es : list effect) : option Z :=
  head (omap (fun e => match e with WriteHeader c => Some c | _ => None end) es).

Definition body (es : list effect) : string :=
  foldr (fun e acc => match e with WriteString s => s ++ acc | _ => acc end) "" es.

Definition callbacks (es : list effect) : list (string * DeviceMeasurement) :=
  omap (fun e => match e with
                 | GoHandleSubmission id dm => Some (id, dm)
                 | _ => None
                 end) es.

Definition dateLayout : string := "2006-01-02 15:04:05".

Section Decoder.
(** [time.Now ().UTC ()] at the time of the call. *)
Variable Now : GoTime.Time.
(** [time.ParseInLocation (layout, value, time.UTC)]. *)
Variable ParseInLocation : string -> string -> GoTime.Time * option error.
(** [strconv.ParseFloat (s, bitSize)]. *)
Variable ParseFloat : string -> Z -> float64 * option error.

(** [stof] parses a float from the given string.  If the string cannot
    be parsed as a float, [0, false] is returned. *)
Definition stof (v : string) : float32 * bool :=
  let '(f, err) := ParseFloat v 32 in
  match err with
  | Some _ => (F32.zero, false)
  | None => (F32.of_f64 f, true)
  end.

(** [if x, ok := stof (v); ok { dm.X = g (x) }] *)
Definition with_stof (v : string)
  (assign : float32 -> DeviceMeasurement -> DeviceMeasurement)
  (dm : DeviceMeasurement) : DeviceMeasurement :=
  let '(x, ok) := stof v in
  if ok then assign x dm else dm.

(** [fromQuery] reads the measurement data from URL query values.  The
    receiver is updated in place: the result is the receiver after the
    call and the returned error. *)
Definition fromQuery (dm : DeviceMeasurement) (q : Values)
  : DeviceMeasurement * option error :=
  let v := Get q "dateutc" in
  let '(dm, err) :=
    if String.eqb v "" || String.eqb v "now" then (set_DateUTC Now dm, None)
    else let '(t, err) := ParseInLocation dateLayout v in (set_DateUTC t dm, err) in
  match err with
  | Some e => (dm, Some ("parse dateutc: " ++ e))
  | None =>
      let dm := if Has q "realtime"
                then set_RealTime (String.eqb (Get q "realtime") "1") dm
                else dm in
      let dm := with_stof (Get q "rtfreq") set_RealTimeFreq dm in
      let dm := with_stof (Get q "winddir") set_WindDirection dm in
      let dm := with_stof (Get q "windspeedmph")
                  (fun x => set_WindSpeed (mphToKPH x)) dm in
      let dm := with_stof (Get q "windgustmph")
                  (fun x => set_WindGust (mphToKPH x)) dm in
      let dm := with_stof (Get q "humidity") set_Humidity dm in
      let dm := with_stof (Get q "dewptf") (fun x => set_DewPoint (ftoc x)) dm in
      let dm := with_stof (Get q "tempf") (fun x => set_Temperature (ftoc x)) dm in
      let dm := with_stof (Get q "rainin")
                  (fun x => set_RainPastHour (inToMM x)) dm in
      let dm := with_stof (Get q "dailyrainin")
                  (fun x => set_RainToday (inToMM x)) dm in
      let dm := with_stof (Get q "baromin")
                  (fun x => set_Barometric (inHgToHPA x)) dm in
      let dm := with_stof (Get q "indoortempf")
                  (fun x => set_IndoorTemp (ftoc x)) dm in
      let dm := with_stof (Get q "indoorhumidity") set_IndoorHumidity dm in
      (dm, None)
  end.

(** [ServeHTTP], on [q = req.URL.Query ()].  The registered callback is
    started in a goroutine of its own, before the response is written. *)
Definition ServeHTTP (q : Values) : list effect :=
  if negb (String.eqb (Get q "action") "updateraww")
     || negb (Has q "ID") || negb (Has q "PASSWORD")
  then http_Error (StatusText StatusBadRequest) StatusBadRequest
  else
    let '(dm, err) := fromQuery zeroDM q in
    match err with
    | Some _ => http_Error (StatusText StatusBadRequest) StatusBadRequest
    | None =>
        [GoHandleSubmission (Get q "ID") dm;
         WriteHeader StatusOK;
         WriteString ("success" ++ LF)]
    end.
End Decoder.

(** The numeric parameters of a submission and the field each one fills. *)
Inductive NumericParam :=
| rtfreq | winddir | windspeedmph | windgustmph | humidity | dewptf | tempf
| rainin | dailyrainin | baromin | indoortempf | indoorhumidity.

Definition param_name (p : NumericParam) : string :=
  match p with
  | rtfreq => "rtfreq" | winddir => "winddir"
  | windspeedmph => "windspeedmph" | windgustmph => "windgustmph"
  | humidity => "humidity" | dewptf => "dewptf" | tempf => "tempf"
  | rainin => "rainin" | dailyrainin => "dailyrainin" | baromin => "baromin"
  | indoortempf => "indoortempf" | indoorhumidity => "indoorhumidity"
  end.

Definition param_field (p : NumericParam) : DeviceMeasurement -> float32 :=
  match p with
  | rtfreq => RealTimeFreq | winddir => WindDirection
  | windspeedmph => WindSpeed | windgustmph => WindGust
  | humidity => Humidity | dewptf => DewPoint | tempf => Temperature
  | rainin => RainPastHour | dailyrainin => RainToday | baromin => Barometric
  | indoortempf => IndoorTemp | indoorhumidity => IndoorHumidity
  end.
End wu.

(** The request validation of the endpoint: the action is the protocol's
    literal, and the station ID and the password are present. *)
Definition validRequest (q : url.Values) : Prop :=
  url.Get q "action" = "updateraww"
  /\ url.Has q "ID" = true /\ url.Has q "PASSWORD" = true.

(* ===================================================================== *)
(** * Package dns: the proxying DNS server                                *)
(* ===================================================================== *)

Module dns.
(** ** The message types and helpers of the DNS library *)
Definition TypeA : Z := 1.
Definition TypeAAAA : Z := 28.
Definition ClassINET : Z := 1.
Definition OpcodeQuery : Z := 0.
Definition RcodeSuccess : Z := 0.
Definition RcodeNameError : Z := 3.

Record Question := mkQuestion { Name : string; Qtype : Z; Qclass : Z }.

(** The header's [Name] is [HName] here, next to the question's. *)
Record RR_Header := mkHeader {
  HName : string; Rrtype : Z; Class : Z; Ttl : Z
}.

(** Resource records: address records, and every other kind with its
    data left as bytes. *)
Inductive RR :=
| RR_A (Hdr : RR_Header) (A : net.IP)
| RR_other (Hdr : RR_Header) (rdata : list Z).

(** The message's [Question] slice is [Questions] here, next to the type
    of its elements. *)
Record Msg := mkMsg {
  Id : Z;
  Response : bool;
  Opcode : Z;
  Authoritative : bool;
  Truncated : bool;
  RecursionDesired : bool;
  RecursionAvailable : bool;
  Zero : bool;
  AuthenticatedData : bool;
  CheckingDisabled : bool;
  Rcode : Z;
  Questions : list Question;
  Answer : list RR;
  Ns : list RR;
  Extra : list RR
}.

(** [new (dns.Msg)] *)
Definition newMsg : Msg :=
  mkMsg 0 false 0 false false false false false false false 0 [] [] [] [].

(** [Msg.SetReply] creates a reply message from a request message. *)
Definition SetReply (m request : Msg) : Msg :=
  let copy := (Opcode request =? OpcodeQuery)%Z in
  mkMsg (Id request) true (Opcode request)
    (Authoritative m) (Truncated m)
    (if copy then RecursionDesired request else RecursionDesired m)
    (RecursionAvailable m) (Zero m) (AuthenticatedData m)
    (if copy then CheckingDisabled request else CheckingDisabled m)
    RcodeSuccess
    (match Questions request with
     | q :: _ => [q]
     | [] => Questions m
     end)
    (Answer m) (Ns m) (Extra m).

(** [Msg.SetRcode]: a reply with the given return code. *)
Definition SetRcode (m request : Msg) (rcode : Z) : Msg :=
  let m := SetReply m request in
  mkMsg (Id m) (Response m) (Opcode m) (Authoritative m) (Truncated m)
    (RecursionDesired m) (RecursionAvailable m) (Zero m) (AuthenticatedData m)
    (CheckingDisabled m) rcode (Questions m) (Answer m) (Ns m) (Extra m).

(** [m.Answer = append (m.Answer, rr)] *)
Definition append_Answer (rr : RR) (m : Msg) : Msg :=
  mkMsg (Id m) (Response m) (Opcode m) (Authoritative m) (Truncated m)
    (RecursionDesired m) (RecursionAvailable m) (Zero m) (AuthenticatedData m)
    (CheckingDisabled m) (Rcode m) (Questions m) (Answer m ++ [rr])%list
    (Ns m) (Extra m).

(** ** The server *)
Record Server := mkServer {
  records : gmap string string;
  forwardDomains : gset string;
  upstreamResolver : string
}.

(** [Config] is the DNS server configuration. *)
Record Config := mkConfig {
  UpstreamResolver : string;
  Records : gmap string string;
  ForwardDomains : list string
}.

(** [NewServer] returns a new DNS server. *)
Definition NewServer (c : Config) : Server :=
  mkServer (Records c)
    (foldl (fun fd domain => {[domain]} ∪ fd) ∅ (ForwardDomains c))
    (UpstreamResolver c).

Section Responder.
(** [net.ParseIP] *)
Variable ParseIP : string -> net.IP.
(** [dnsClient.Exchange (r, address)]: the response, or the error. *)
Variable Exchange : Msg -> string -> Msg + error.

(** The forward step and the blackhole step, reached when no local
    record answered. *)
Definition forwardOrBlackhole (s : Server) (r : Msg) (domain : string)
  : list Msg :=
  if decide (domain ∈ forwardDomains s) then
    match Exchange r (upstreamResolver s) with
    | inr _ => []
    | inl res => [res]
    end
  else [SetRcode newMsg r RcodeNameError].

(** [ServeDNS]: the messages written to the [dns.ResponseWriter]. *)
Definition ServeDNS (s : Server) (r : Msg) : list Msg :=
  match Questions r with
  | [q] =>
      let domain := Name q in
      if (Qtype q =? TypeA)%Z then
        match records s !! domain with
        | Some ip =>
            let m := SetReply newMsg r in
            let m := append_Answer
                       (RR_A (mkHeader domain TypeA ClassINET 3600) (ParseIP ip)) m in
            [m]
        | None => forwardOrBlackhole s r domain
        end
      else forwardOrBlackhole s r domain
  | _ => []
  end.
End Responder.
End dns.

(** ** unicode/utf8: [ValidString] over the bytes of a Go string *)
Module utf8.
Definition byte (c : ascii) : N := N_of_ascii c.

Definition between (lo hi : N) (c : ascii) : bool :=
  ((lo <=? byte c) && (byte c <=? hi))%N.

(** A continuation byte, [0x80..0xBF]. *)
Definition continuation (c : ascii) : bool := between 128 191 c.

(** The table [first]: for a leading byte from [0x80] on, the size of the
    sequence and the range accepted for its second byte; [None] is the
    table's [xx], a byte that cannot lead. *)
Definition first (b : N) : option (nat * N * N) :=
  (if (194 <=? b) && (b <=? 223) then Some (2%nat, 128, 191)
   else if b =? 224 then Some (3%nat, 160, 191)
   else if (225 <=? b) && (b <=? 236) then Some (3%nat, 128, 191)
   else if b =? 237 then Some (3%nat, 128, 159)
   else if (238 <=? b) && (b <=? 239) then Some (3%nat, 128, 191)
   else if b =? 240 then Some (4%nat, 144, 191)
   else if (241 <=? b) && (b <=? 243) then Some (4%nat, 128, 191)
   else if b =? 244 then Some (4%nat, 128, 143)
   else None)%N.

(** [ValidString] reports whether [s] consists entirely of valid UTF-8
    encoded runes. *)
Fixpoint ValidString (s : string) : bool :=
  match s with
  | EmptyString => true
  | String c0 r0 =>
      if (byte c0 <? 128)%N then ValidString r0
      else
        match first (byte c0), r0 with
        | Some (size, lo, hi), String c1 r1 =>
            if between lo hi c1 then
              match size, r1 with
              | 2%nat, _ => ValidString r1
              | 3%nat, String c2 r2 => continuation c2 && ValidString r2
              | _, String c2 (String c3 r3) =>
                  continuation c2 && continuation c3 && ValidString r3
              | _, _ => false
              end
            else false
        | _, _ => false
        end
  end.
End utf8.

(* ===================================================================== *)
(** * Package exporter: metrics sink and orchestrator                     *)
(* ===================================================================== *)

Module exporter.
(** [wuDomains] are the domains used to submit data to the Weather
    Underground API. *)
Definition wuDomains : list string :=
  ["weatherstation.wunderground.com"; "rtupdate.wunderground.com"].

(** [forwardDomains] are forwarded to the upstream DNS resolver. *)
Definition forwardDomains : list string :=
  ["time.nist.gov."; "time-nw.nist.gov."; "time-a.nist.gov.";
   "time-b.nist.gov."; "time.windows.com."].

(** ** The metric vectors.  Every vector has the single label
    [station_id]; a vector maps the label's value to its series. *)
Abbreviation GaugeVec := (gmap string float64).
Abbreviation CounterVec := (gmap string float64).

Record Metrics := mkMetrics {
  BarometricPressure : GaugeVec;
  DewPoint : GaugeVec;
  Humidity : GaugeVec;
  IndoorHumidity : GaugeVec;
  IndoorTemperature : GaugeVec;
  RainPastHour : GaugeVec;
  Rain : CounterVec;
  Temperature : GaugeVec;
  WindDirection : GaugeVec;
  WindGustSpeed : GaugeVec;
  WindSpeed : GaugeVec
}.

(** [newMetrics]: no series yet. *)
Definition newMetrics : Metrics :=
  mkMetrics ∅ ∅ ∅ ∅ ∅ ∅ ∅ ∅ ∅ ∅ ∅.

(** What the metrics library panics with.  The sink runs in a goroutine of
    its own that recovers nothing: a panic ends the process, and no metric
    state outlives it. *)
Inductive panicValue :=
| LabelValueNotUTF8 (value : string)
| CounterCannotDecrease.

(** A call that returns ([inl]) or panics ([inr]), and the rest of the
    function after it. *)
Definition andThen {A B : Type} (call : A + panicValue) (rest : A -> B + panicValue)
  : B + panicValue :=
  match call with
  | inl a => rest a
  | inr p => inr p
  end.

Notation "x <~ call ;; rest" := (andThen call (fun x => rest))
  (at level 100, call at next level, rest at level 200, right associativity).

(** [vec.With (l)]: the series of the label value [l], created if absent.
    [With] panics when the label value is not valid UTF-8 (the label name
    and the number of labels are right by construction here). *)
Definition With (l : string) : unit + panicValue :=
  if utf8.ValidString l then inl tt else inr (LabelValueNotUTF8 l).

(** [vec.With (l).Set (v)]: the last value wins. *)
Definition GaugeVec_Set (l : string) (v : float64) (vec : GaugeVec)
  : GaugeVec + panicValue :=
  _ <~ With l ;;
  inl (<[l := v]> vec).

(** [vec.Delete (l)]: never panics; a label value that is not valid UTF-8
    has no series to delete. *)
Definition CounterVec_Delete (l : string) (vec : CounterVec) : CounterVec :=
  delete l vec.

(** [vec.With (l).Add (v)]: the series is created at zero if absent.  A
    counter cannot decrease: as the metrics library documents, [Add] panics
    if the value is below zero.  The series holds what a scrape reads, the
    sum of what was added. *)
Definition CounterVec_Add (l : string) (v : float64) (vec : CounterVec)
  : CounterVec + panicValue :=
  _ <~ With l ;;
  if F64.ltb v F64.zero then inr CounterCannotDecrease
  else inl (<[l := F64.add (default F64.zero (vec !! l)) v]> vec).

Definition upd_BarometricPressure (f : GaugeVec -> GaugeVec) (m : Metrics) :=
  mkMetrics (f (BarometricPressure m)) (DewPoint m) (Humidity m) (IndoorHumidity m)
    (IndoorTemperature m) (RainPastHour m) (Rain m) (Temperature m)
    (WindDirection m) (WindGustSpeed m) (WindSpeed m).
Definition upd_DewPoint (f : GaugeVec -> GaugeVec) (m : Metrics) :=
  mkMetrics (BarometricPressure m) (f (DewPoint m)) (Humidity m) (IndoorHumidity m)
    (IndoorTemperature m) (RainPastHour m) (Rain m) (Temperature m)
    (WindDirection m) (WindGustSpeed m) (WindSpeed m).
Definition upd_Humidity (f : GaugeVec -> GaugeVec) (m : Metrics) :=
  mkMetrics (BarometricPressure m) (DewPoint m) (f (Humidity m)) (IndoorHumidity m)
    (IndoorTemperature m) (RainPastHour m) (Rain m) (Temperature m)
    (WindDirection m) (WindGustSpeed m) (WindSpeed m).
Definition upd_IndoorHumidity (f : GaugeVec -> GaugeVec) (m : Metrics) :=
  mkMetrics (BarometricPressure m) (DewPoint m) (Humidity m) (f (IndoorHumidity m))
    (IndoorTemperature m) (RainPastHour m) (Rain m) (Temperature m)
    (WindDirection m) (WindGustSpeed m) (WindSpeed m).
Definition upd_IndoorTemperature (f : GaugeVec -> GaugeVec) (m : Metrics) :=
  mkMetrics (BarometricPressure m) (DewPoint m) (Humidity m) (IndoorHumidity m)
    (f (IndoorTemperature m)) (RainPastHour m) (Rain m) (Temperature m)
    (WindDirection m) (WindGustSpeed m) (WindSpeed m).
Definition upd_RainPastHour (f : GaugeVec -> GaugeVec) (m : Metrics) :=
  mkMetrics (BarometricPressure m) (DewPoint m) (Humidity m) (IndoorHumidity m)
    (IndoorTemperature m) (f (RainPastHour m)) (Rain m) (Temperature m)
    (WindDirection m) (WindGustSpeed m) (WindSpeed m).
Definition upd_Rain (f : CounterVec -> CounterVec) (m : Metrics) :=
  mkMetrics (BarometricPressure m) (DewPoint m) (Humidity m) (IndoorHumidity m)
    (IndoorTemperature m) (RainPastHour m) (f (Rain m)) (Temperature m)
    (WindDirection m) (WindGustSpeed m) (WindSpeed m).
Definition upd_Temperature (f : GaugeVec -> GaugeVec) (m : Metrics) :=
  mkMetrics (BarometricPressure m) (DewPoint m) (Humidity m) (IndoorHumidity m)
    (IndoorTemperature m) (RainPastHour m) (Rain m) (f (Temperature m))
    (WindDirection m) (WindGustSpeed m) (WindSpeed m).
Definition upd_WindDirection (f : GaugeVec -> GaugeVec) (m : Metrics) :=
  mkMetrics (BarometricPressure m) (DewPoint m) (Humidity m) (IndoorHumidity m)
    (IndoorTemperature m) (RainPastHour m) (Rain m) (Temperature m)
    (f (WindDirection m)) (WindGustSpeed m) (WindSpeed m).
Definition upd_WindGustSpeed (f : GaugeVec -> GaugeVec) (m : Metrics) :=
  mkMetrics (BarometricPressure m) (DewPoint m) (Humidity m) (IndoorHumidity m)
    (IndoorTemperature m) (RainPastHour m) (Rain m) (Temperature m)
    (WindDirection m) (f (WindGustSpeed m)) (WindSpeed m).
Definition upd_WindSpeed (f : GaugeVec -> GaugeVec) (m : Metrics) :=
  mkMetrics (BarometricPressure m) (DewPoint m) (Humidity m) (IndoorHumidity m)
    (IndoorTemperature m) (RainPastHour m) (Rain m) (Temperature m)
    (WindDirection m) (WindGustSpeed m) (f (WindSpeed m)).

Definition hundred : float32 := F32.of_ratio 100 1.

(** [handleWUSubmission]: the metrics when the call returns, or the panic
    that ended it. *)
Definition handleWUSubmission (m : Metrics) (deviceID : string)
  (dm : wu.DeviceMeasurement) : Metrics + panicValue :=
  let l := deviceID in
  vec <~ GaugeVec_Set l (F64.of_f32 (wu.Barometric dm)) (BarometricPressure m) ;;
  let m := upd_BarometricPressure (fun _ => vec) m in
  vec <~ GaugeVec_Set l (F64.of_f32 (wu.DewPoint dm)) (DewPoint m) ;;
  let m := upd_DewPoint (fun _ => vec) m in
  vec <~ GaugeVec_Set l (F64.of_f32 (F32.div (wu.Humidity dm) hundred)) (Humidity m) ;;
  let m := upd_Humidity (fun _ => vec) m in
  vec <~ GaugeVec_Set l (F64.of_f32 (F32.div (wu.IndoorHumidity dm) hundred))
           (IndoorHumidity m) ;;
  let m := upd_IndoorHumidity (fun _ => vec) m in
  vec <~ GaugeVec_Set l (F64.of_f32 (wu.IndoorTemp dm)) (IndoorTemperature m) ;;
  let m := upd_IndoorTemperature (fun _ => vec) m in
  vec <~ GaugeVec_Set l (F64.of_f32 (wu.RainPastHour dm)) (RainPastHour m) ;;
  let m := upd_RainPastHour (fun _ => vec) m in
  (* Counter state is stored on the station, not in the exporter. *)
  let m := upd_Rain (CounterVec_Delete l) m in
  vec <~ CounterVec_Add l (F64.of_f32 (wu.RainToday dm)) (Rain m) ;;
  let m := upd_Rain (fun _ => vec) m in
  vec <~ GaugeVec_Set l (F64.of_f32 (wu.Temperature dm)) (Temperature m) ;;
  let m := upd_Temperature (fun _ => vec) m in
  vec <~ GaugeVec_Set l (F64.of_f32 (wu.WindDirection dm)) (WindDirection m) ;;
  let m := upd_WindDirection (fun _ => vec) m in
  vec <~ GaugeVec_Set l (F64.of_f32 (wu.WindGust dm)) (WindGustSpeed m) ;;
  let m := upd_WindGustSpeed (fun _ => vec) m in
  vec <~ GaugeVec_Set l (F64.of_f32 (wu.WindSpeed dm)) (WindSpeed m) ;;
  let m := upd_WindSpeed (fun _ => vec) m in
  inl m.

(** ** The orchestrator *)

(** A [tls.Certificate], by what the issuer puts in it. *)
Record Certificate := mkCertificate {
  SerialNumber : Z;
  DNSNames : list string
}.

Definition VersionTLS10 : Z := 769.

(** [tls.Config] *)
Record tlsConfigT := mkTLSConfig {
  Certificates : list Certificate;
  MinVersion : Z
}.

(** [http.Server], whose handler serves [wu.SubmissionPath]. *)
Record httpServerT := mkHTTPServer {
  ReadHeaderTimeout : Z;
  TLSConfig : option tlsConfigT
}.

Record Exporter := mkExporter {
  exporterIP : string;
  upstreamResolver : string;
  dnsListenAddress : string;
  wuListenAddress : string;
  wuTLSListenAddress : string;
  running : bool;
  metrics : Metrics;
  dnsServer : option dns.Server;
  httpServer : option httpServerT
}.

Record Config := mkConfig {
  ExporterIP : string;
  UpstreamResolver : string;
  DNSListenAddress : string;
  WUListenAddress : string;
  WUTLSListenAddress : string
}.

Definition set_running (b : bool) (e : Exporter) : Exporter :=
  mkExporter (exporterIP e) (upstreamResolver e) (dnsListenAddress e)
    (wuListenAddress e) (wuTLSListenAddress e) b (metrics e) (dnsServer e)
    (httpServer e).
Definition set_dnsServer (s : dns.Server) (e : Exporter) : Exporter :=
  mkExporter (exporterIP e) (upstreamResolver e) (dnsListenAddress e)
    (wuListenAddress e) (wuTLSListenAddress e) (running e) (metrics e) (Some s)
    (httpServer e).
Definition set_httpServer (s : httpServerT) (e : Exporter) : Exporter :=
  mkExporter (exporterIP e) (upstreamResolver e) (dnsListenAddress e)
    (wuListenAddress e) (wuTLSListenAddress e) (running e) (metrics e)
    (dnsServer e) (Some s).

(** [atomic.Bool.CompareAndSwap (old, new)]: the flag after the call and
    whether the swap happened. *)
Definition CompareAndSwap (old new : bool) (flag : bool) : bool * bool :=
  if Bool.eqb flag old then (new, true) else (flag, false).

Definition nonempty (s : string) : bool := negb (String.eqb s "").

(** What the start routine does to the outside, in program order: the
    call of the certificate issuer, and the listener tasks handed to the
    error group. *)
Inductive event :=
| GenTLSCertificate
| GoDNS (addr : string) (srv : dns.Server)
| GoServe (addr : string) (srv : httpServerT)
| GoServeTLS (addr : string) (srv : httpServerT).

Section Orchestrator.
(** [outboundIP ()], as text. *)
Variable outboundIP : string + error.
(** [genTLSCertificate ()] *)
Variable genTLSCertificate : Certificate + error.
(** [errg.Wait ()]: the first error of the listener tasks once all of
    them have returned, which they do when they fail or are shut down. *)
Variable Wait : list event -> option error.

(** [NewExporter] returns a new exporter. *)
Definition NewExporter (c : Config) : Exporter + error :=
  match (if String.eqb (ExporterIP c) "" then
           match outboundIP with
           | inr err => inr ("could not determine exporter IP address: " ++ err)
           | inl ip => inl ip
           end
         else inl (ExporterIP c)) with
  | inr err => inr err
  | inl ip =>
      let wuAddr := if String.eqb (WUListenAddress c) "" then ":80"
                    else WUListenAddress c in
      let tlsAddr := if String.eqb (WUTLSListenAddress c) "" then ":443"
                     else WUTLSListenAddress c in
      inl (mkExporter ip (UpstreamResolver c) (DNSListenAddress c) wuAddr tlsAddr
             false newMetrics None None)
  end.

(** The start routine between the guard and the deferred reset. *)
Definition serve (e : Exporter) : Exporter * list event * option error :=
  (* TLS configuration. *)
  let '(tlsConfig, ev0, err) :=
    if nonempty (wuTLSListenAddress e) then
      match genTLSCertificate with
      | inr err =>
          (None, [GenTLSCertificate],
           Some ("generate self signed certificate: " ++ err))
      | inl cert =>
          (Some (mkTLSConfig [cert] VersionTLS10), [GenTLSCertificate], None)
      end
    else (None, [], None) in
  match err with
  | Some err => (e, ev0, Some err)
  | None =>
      (* Setup HTTP server *)
      let srv := mkHTTPServer 5 tlsConfig in
      let e := set_httpServer srv e in
      (* Setup DNS server *)
      let localDomains :=
        foldl (fun ld domain => <[domain ++ "." := exporterIP e]> ld)
              (∅ : gmap string string) wuDomains in
      let dnsSrv := dns.NewServer
                      (dns.mkConfig (upstreamResolver e) localDomains forwardDomains) in
      let e := set_dnsServer dnsSrv e in
      (* Start DNS server *)
      let g1 := if nonempty (dnsListenAddress e)
                then [GoDNS (dnsListenAddress e) dnsSrv] else [] in
      (* Start HTTPS server *)
      let g2 := [GoServe (wuListenAddress e) srv] in
      let g3 := if nonempty (wuListenAddress e)
                then [GoServeTLS (wuTLSListenAddress e) srv] else [] in
      let tasks := (g1 ++ g2 ++ g3)%list in
      (e, (ev0 ++ tasks)%list, Wait tasks)
  end.

(** [ListenAndServe] starts the exporter and the DNS and HTTP servers:
    the exporter when it returns, what it did, and what it returns. *)
Definition ListenAndServe (e : Exporter) : Exporter * list event * option error :=
  let '(flag, swapped) := CompareAndSwap false true (running e) in
  if negb swapped then (e, [], Some "already running")
  else
    let e := set_running flag e in
    let '(e, evs, err) := serve e in
    (* defer e.running.CompareAndSwap(true, false) *)
    (set_running (fst (CompareAndSwap true false (running e))) e, evs, err).
End Orchestrator.

Definition isServeTLS (ev : event) : bool :=
  match ev with GoServeTLS _ _ => true | _ => false end.

Definition isListener (ev : event) : bool :=
  match ev with GenTLSCertificate => false | _ => true end.

(** Whether the TLS-terminated listener was started. *)
Definition tlsListenerStarted (evs : list event) : bool := existsb isServeTLS evs.

(** Whether every TLS-terminated listener in [evs] is started after a
    call of the certificate issuer, with a certificate in its
    configuration. *)
Fixpoint certificateBeforeTLS (issued : bool) (evs : list event) : bool :=
  match evs with
  | [] => true
  | GenTLSCertificate :: evs' => certificateBeforeTLS true evs'
  | GoServeTLS _ srv :: evs' =>
      issued
      && match TLSConfig srv with
         | Some cfg => negb (Nat.eqb (length (Certificates cfg)) 0)
         | None => false
         end
      && certificateBeforeTLS issued evs'
  | _ :: evs' => certificateBeforeTLS issued evs'
  end.
End exporter.

(* ===================================================================== *)
(** * Example data                                                        *)
(* ===================================================================== *)

Module Examples.
(** The table the orchestrator builds for the exporter at 192.168.1.10,
    and the forward set of the repository. *)
Definition localDomains : gmap string string :=
  <["rtupdate.wunderground.com." := "192.168.1.10"]>
    (<["weatherstation.wunderground.com." := "192.168.1.10"]> ∅).

Definition server : dns.Server :=
  dns.NewServer (dns.mkConfig "8.8.8.8:53" localDomains exporter.forwardDomains).

(** A server whose forward set also lists a name of its table. *)
Definition overlapServer : dns.Server :=
  dns.NewServer
    (dns.mkConfig "8.8.8.8:53" localDomains ["weatherstation.wunderground.com."]).

(** A standard query with recursion desired. *)
Definition question (name : string) (qtype : Z) : dns.Question :=
  dns.mkQuestion name qtype dns.ClassINET.

Definition request (qs : list dns.Question) : dns.Msg :=
  dns.mkMsg 4242 false dns.OpcodeQuery false false true false false false false
    dns.RcodeSuccess qs [] [] [].

(** An upstream resolver that cannot be reached. *)
Definition upstreamDown (r : dns.Msg) (address : string) : dns.Msg + error :=
  inr "i/o timeout".

(** An upstream resolver that answers every query with one record. *)
Definition upstreamUp (r : dns.Msg) (address : string) : dns.Msg + error :=
  inl (dns.append_Answer
         (dns.RR_other (dns.mkHeader "time.nist.gov." dns.TypeAAAA dns.ClassINET 300)
            [32; 1; 13; 184]%Z)
         (dns.SetReply dns.newMsg r)).

Definition now : GoTime.Time := GoTime.mkTime 2025 1 23 23 9 18 0.

(** The query of the repository's own test, [testQuery]. *)
Definition testQuery : url.Values :=
  list_to_map
    [("ID", ["test"]); ("PASSWORD", ["testtest"]); ("action", ["updateraww"]);
     ("realtime", ["1"]); ("rtfreq", ["5"]); ("dateutc", ["now"]);
     ("baromin", ["29.65"]); ("tempf", ["63.5"]); ("dewptf", ["51.2"]);
     ("humidity", ["64"]); ("windspeedmph", ["4.4"]); ("windgustmph", ["4.9"]);
     ("winddir", ["270"]); ("rainin", ["0.0"]); ("dailyrainin", ["0.0"]);
     ("indoortempf", ["73.5"]); ("indoorhumidity", ["44"])].

(** A station ID of the single byte 0xFF, as [ID=%ff] decodes. *)
Definition byteFF : string := String "255"%char EmptyString.

(** The test query with another rain total of the day. *)
Definition rainQuery (dailyrainin : string) : url.Values :=
  <["dailyrainin" := [dailyrainin]]> testQuery.

Definition decode (q : url.Values) : wu.DeviceMeasurement * option error :=
  wu.fromQuery now GoTime.ParseInLocation strconv.ParseFloat wu.zeroDM q.

(** An exporter that is not running, by its two submission addresses. *)
Definition exporterAt (wuListen wuTLSListen : string) : exporter.Exporter :=
  exporter.mkExporter "192.168.1.10" "8.8.8.8:53" "" wuListen wuTLSListen false
    exporter.newMetrics None None.

Definition certificate : exporter.Certificate :=
  exporter.mkCertificate 271828182845904523536 exporter.wuDomains.

(** An issuer that succeeds, and listeners that are shut down. *)
Definition issuer : exporter.Certificate + error := inl certificate.

Definition shutdown (tasks : list exporter.event) : option error :=
  Some "http: Server closed".

Definition listenAndServe (e : exporter.Exporter)
  : exporter.Exporter * list exporter.event * option error :=
  exporter.ListenAndServe issuer shutdown e.
End Examples.

(* ===================================================================== *)
(** * Tables read off the decoder and the sink                            *)
(* ===================================================================== *)

(** The conversion [fromQuery] applies to each numeric parameter before it
    stores it. *)
Definition param_convert (p : wu.NumericParam) : float32 -> float32 :=
  match p with
  | wu.windspeedmph | wu.windgustmph => wu.mphToKPH
  | wu.dewptf | wu.tempf | wu.indoortempf => wu.ftoc
  | wu.rainin | wu.dailyrainin => wu.inToMM
  | wu.baromin => wu.inHgToHPA
  | wu.rtfreq | wu.winddir | wu.humidity | wu.indoorhumidity => fun x => x
  end.

(** The query keys [fromQuery] reads. *)
Definition decoderKeys : list string :=
  ["dateutc"; "realtime"; "rtfreq"; "winddir"; "windspeedmph"; "windgustmph";
   "humidity"; "dewptf"; "tempf"; "rainin"; "dailyrainin"; "baromin";
   "indoortempf"; "indoorhumidity"].

(** The metric vectors of [Metrics], by name. *)
Inductive Series :=
| sBarometricPressure | sDewPoint | sHumidity | sIndoorHumidity
| sIndoorTemperature | sRainPastHour | sRain | sTemperature
| sWindDirection | sWindGustSpeed | sWindSpeed.

Definition seriesOf (k : Series) : exporter.Metrics -> gmap string float64 :=
  match k with
  | sBarometricPressure => exporter.BarometricPressure
  | sDewPoint => exporter.DewPoint
  | sHumidity => exporter.Humidity
  | sIndoorHumidity => exporter.IndoorHumidity
  | sIndoorTemperature => exporter.IndoorTemperature
  | sRainPastHour => exporter.RainPastHour
  | sRain => exporter.Rain
  | sTemperature => exporter.Temperature
  | sWindDirection => exporter.WindDirection
  | sWindGustSpeed => exporter.WindGustSpeed
  | sWindSpeed => exporter.WindSpeed
  end.

(** A configuration that sets the DNS address and leaves the rest to
    [NewExporter], and a probe that finds the outbound address. *)
Definition exampleConfig : exporter.Config :=
  exporter.mkConfig "" "8.8.8.8:53" ":53" "" "".

Definition exampleProbe : string + error := inl "192.168.1.10".

(** The certificate of a later run: another serial number. *)
Definition secondCertificate : exporter.Certificate :=
  exporter.mkCertificate 314159265358979323846 exporter.wuDomains.

(** The rain totals the counter accepts: [float64 (dm.RainToday) < 0] is
    false. *)
Definition sinkAccepts (dm : wu.DeviceMeasurement) : Prop :=
  F64.ltb (F64.of_f32 (wu.RainToday dm)) F64.zero = false.

(* ===================================================================== *)
(** * Properties                                                          *)
(* ===================================================================== *)

(** ** Unit conversions *)

(** C4.  Each of the four unit conversions is its reference formula at
    every [float32] input: [ftoc f = (f - 32) / 1.8], [inToMM i = i * 25.4],
    [mphToKPH m = m * 1.609344], [inHgToHPA p = p * 33.8639]; and on the
    test vectors [ftoc 32 = 0], [ftoc 212 = 100], [inToMM 10 = 254] and
    [mphToKPH 60 = 96.56064], bit for bit. *)
Theorem conversions_match_reference :
  (forall f, wu.ftoc f = wu.Reference.fahrenheit_to_celsius f)
  /\ (forall i, wu.inToMM i = wu.Reference.inches_to_millimeters i)
  /\ (forall m, wu.mphToKPH m = wu.Reference.mph_to_kmh m)
  /\ (forall p, wu.inHgToHPA p = wu.Reference.inHg_to_hPa p)
  /\ wu.ftoc (F32.of_ratio 32 1) = F32.zero
  /\ wu.ftoc (F32.of_ratio 212 1) = F32.of_ratio 100 1
  /\ wu.inToMM (F32.of_ratio 10 1) = F32.of_ratio 254 1
  /\ wu.mphToKPH (F32.of_ratio 60 1) = F32.of_ratio 9656064 100000.
Proof.
  repeat split; try (intros; reflexivity); vm_compute; reflexivity.
Qed.

(** ** The DNS responder *)

Section dns_properties.
Variable ParseIP : string -> net.IP.
Variable Exchange : dns.Msg -> string -> dns.Msg + error.

Lemma ServeDNS_single (s : dns.Server) (r : dns.Msg) (q : dns.Question) :
  dns.Questions r = [q] ->
  dns.ServeDNS ParseIP Exchange s r =
    if (dns.Qtype q =? dns.TypeA)%Z then
      match dns.records s !! dns.Name q with
      | Some ip =>
          [dns.append_Answer
             (dns.RR_A (dns.mkHeader (dns.Name q) dns.TypeA dns.ClassINET 3600)
                (ParseIP ip))
             (dns.SetReply dns.newMsg r)]
      | None => dns.forwardOrBlackhole Exchange s r (dns.Name q)
      end
    else dns.forwardOrBlackhole Exchange s r (dns.Name q).
Proof. intros Hq. unfold dns.ServeDNS. rewrite Hq. reflexivity. Qed.

Lemma forwardOrBlackhole_forward s r domain :
  domain ∈ dns.forwardDomains s ->
  dns.forwardOrBlackhole Exchange s r domain =
    match Exchange r (dns.upstreamResolver s) with
    | inl res => [res]
    | inr _ => []
    end.
Proof.
  intros Hin. unfold dns.forwardOrBlackhole.
  destruct (decide (domain ∈ dns.forwardDomains s)) as [_|Hn]; [|contradiction].
  destruct (Exchange r (dns.upstreamResolver s)); reflexivity.
Qed.

Lemma forwardOrBlackhole_blackhole s r domain :
  domain ∉ dns.forwardDomains s ->
  dns.forwardOrBlackhole Exchange s r domain =
    [dns.SetRcode dns.newMsg r dns.RcodeNameError].
Proof.
  intros Hn. unfold dns.forwardOrBlackhole.
  destruct (decide (domain ∈ dns.forwardDomains s)); [contradiction|reflexivity].
Qed.

(** C1.  A request with exactly one question: when the question has type A
    and its name is a key of the record table, exactly one message is
    written, a reply to the request with return code success whose only
    answer is an A record for the name, class INET, TTL 3600, with the
    parsed address of the table; when the name is neither in the table nor
    in the forward set, exactly one message is written, a reply with
    return code NXDOMAIN and no answer records. *)
Theorem ServeDNS_answer_or_nxdomain (s : dns.Server) (r : dns.Msg) (q : dns.Question) :
  dns.Questions r = [q] ->
  (forall ip, dns.Qtype q = dns.TypeA -> dns.records s !! dns.Name q = Some ip ->
     exists m, dns.ServeDNS ParseIP Exchange s r = [m]
       /\ dns.Answer m =
            [dns.RR_A (dns.mkHeader (dns.Name q) dns.TypeA dns.ClassINET 3600)
               (ParseIP ip)]
       /\ dns.Rcode m = dns.RcodeSuccess
       /\ dns.Response m = true /\ dns.Id m = dns.Id r /\ dns.Questions m = [q])
  /\ (dns.records s !! dns.Name q = None -> dns.Name q ∉ dns.forwardDomains s ->
     exists m, dns.ServeDNS ParseIP Exchange s r = [m]
       /\ dns.Rcode m = dns.RcodeNameError
       /\ dns.Answer m = [] /\ dns.Ns m = [] /\ dns.Extra m = []
       /\ dns.Response m = true /\ dns.Id m = dns.Id r /\ dns.Questions m = [q]).
Proof.
  intros Hq. rewrite (ServeDNS_single s r q Hq). split.
  - intros ip HA Hrec. rewrite HA, Z.eqb_refl, Hrec.
    eexists. split; [reflexivity|]. cbn. rewrite Hq. repeat split.
  - intros Hrec Hfwd. rewrite Hrec.
    rewrite (forwardOrBlackhole_blackhole s r _ Hfwd).
    destruct (dns.Qtype q =? dns.TypeA)%Z;
      (eexists; split; [reflexivity|]; cbn; rewrite Hq; repeat split).
Qed.

(** C6, as the code has it.  A request with exactly one question whose
    name is a key of the record table and whose type is not A: when the
    name is not in the forward set, the reply is NXDOMAIN; when the name
    is also in the forward set, the query is relayed to the upstream
    resolver, whose response is written, or nothing on an exchange
    error. *)
Theorem ServeDNS_table_name_other_type (s : dns.Server) (r : dns.Msg) (q : dns.Question) :
  dns.Questions r = [q] ->
  is_Some (dns.records s !! dns.Name q) ->
  dns.Qtype q <> dns.TypeA ->
  (dns.Name q ∉ dns.forwardDomains s ->
     dns.ServeDNS ParseIP Exchange s r = [dns.SetRcode dns.newMsg r dns.RcodeNameError])
  /\ (dns.Name q ∈ dns.forwardDomains s ->
     dns.ServeDNS ParseIP Exchange s r =
       match Exchange r (dns.upstreamResolver s) with
       | inl res => [res]
       | inr _ => []
       end).
Proof.
  intros Hq _ Hty. rewrite (ServeDNS_single s r q Hq).
  apply Z.eqb_neq in Hty. rewrite Hty. split; intros H.
  - apply forwardOrBlackhole_blackhole, H.
  - apply forwardOrBlackhole_forward, H.
Qed.

(** C7.  A request with exactly one question whose name is in the forward
    set and is not answered from the table (the name is not a key of the
    table, or the type is not A): when the exchange with the upstream
    resolver succeeds, the upstream's response is the one message written,
    as it was received; when the exchange fails, nothing is written. *)
Theorem ServeDNS_forward (s : dns.Server) (r : dns.Msg) (q : dns.Question) :
  dns.Questions r = [q] ->
  dns.records s !! dns.Name q = None \/ dns.Qtype q <> dns.TypeA ->
  dns.Name q ∈ dns.forwardDomains s ->
  (forall res, Exchange r (dns.upstreamResolver s) = inl res ->
     dns.ServeDNS ParseIP Exchange s r = [res])
  /\ (forall err, Exchange r (dns.upstreamResolver s) = inr err ->
     dns.ServeDNS ParseIP Exchange s r = []).
Proof.
  intros Hq Hmiss Hfwd. rewrite (ServeDNS_single s r q Hq).
  assert (Hgo : (if (dns.Qtype q =? dns.TypeA)%Z
                 then match dns.records s !! dns.Name q with
                      | Some ip =>
                          [dns.append_Answer
                             (dns.RR_A (dns.mkHeader (dns.Name q) dns.TypeA
                                          dns.ClassINET 3600) (ParseIP ip))
                             (dns.SetReply dns.newMsg r)]
                      | None => dns.forwardOrBlackhole Exchange s r (dns.Name q)
                      end
                 else dns.forwardOrBlackhole Exchange s r (dns.Name q))
                = dns.forwardOrBlackhole Exchange s r (dns.Name q)).
  { destruct Hmiss as [Hnone|Hty].
    - rewrite Hnone. destruct (dns.Qtype q =? dns.TypeA)%Z; reflexivity.
    - apply Z.eqb_neq in Hty. rewrite Hty. reflexivity. }
  rewrite Hgo, (forwardOrBlackhole_forward s r _ Hfwd).
  split; intros x Hx; rewrite Hx; reflexivity.
Qed.

(** C8.  A request whose number of questions is not one (none, or more
    than one) has nothing written in reply. *)
Theorem ServeDNS_question_count (s : dns.Server) (r : dns.Msg) :
  length (dns.Questions r) <> 1%nat ->
  dns.ServeDNS ParseIP Exchange s r = [].
Proof.
  intros Hlen. unfold dns.ServeDNS.
  destruct (dns.Questions r) as [|q [|q' qs]]; cbn in Hlen;
    [reflexivity | contradiction | reflexivity].
Qed.
End dns_properties.

(** C1 at the repository's table: an A query for a vendor name is answered
    with the exporter's address, an A query for an unlisted name with
    NXDOMAIN. *)
Lemma ServeDNS_answer_or_nxdomain_witness :
  (exists m,
     dns.ServeDNS net.ParseIP Examples.upstreamDown Examples.server
       (Examples.request [Examples.question "rtupdate.wunderground.com." dns.TypeA]) = [m]
     /\ dns.Answer m =
          [dns.RR_A (dns.mkHeader "rtupdate.wunderground.com." 1 1 3600)
             [0; 0; 0; 0; 0; 0; 0; 0; 0; 0; 255; 255; 192; 168; 1; 10]%Z]
     /\ dns.Rcode m = 0%Z)
  /\ (exists m,
       dns.ServeDNS net.ParseIP Examples.upstreamDown Examples.server
         (Examples.request [Examples.question "api.weather.com." dns.TypeA]) = [m]
       /\ dns.Rcode m = 3%Z /\ dns.Answer m = []).
Proof.
  split.
  - destruct (proj1 (ServeDNS_answer_or_nxdomain net.ParseIP Examples.upstreamDown
                       Examples.server
                       (Examples.request
                          [Examples.question "rtupdate.wunderground.com." dns.TypeA])
                       (Examples.question "rtupdate.wunderground.com." dns.TypeA)
                       eq_refl) "192.168.1.10" eq_refl ltac:(vm_compute; reflexivity))
      as (m & Hm & Hans & Hrc & _).
    exists m. repeat split; assumption.
  - destruct (proj2 (ServeDNS_answer_or_nxdomain net.ParseIP Examples.upstreamDown
                       Examples.server
                       (Examples.request
                          [Examples.question "api.weather.com." dns.TypeA])
                       (Examples.question "api.weather.com." dns.TypeA)
                       eq_refl) ltac:(vm_compute; reflexivity)
                    ltac:(apply (bool_decide_unpack _); vm_compute; exact I))
      as (m & Hm & Hrc & Hans & _).
    exists m. repeat split; assumption.
Defined.

(** C6 as stated fails: with a table name that is also in the forward set,
    an AAAA query is not answered NXDOMAIN.  It is relayed: the upstream's
    answer goes back when the exchange succeeds, nothing when it fails. *)
Lemma ServeDNS_table_precedence_counterexample :
  let q := Examples.question "weatherstation.wunderground.com." dns.TypeAAAA in
  let r := Examples.request [q] in
  let s := Examples.overlapServer in
  dns.Questions r = [q]
  /\ is_Some (dns.records s !! dns.Name q)
  /\ dns.Name q ∈ dns.forwardDomains s
  /\ dns.Qtype q <> dns.TypeA
  /\ dns.ServeDNS net.ParseIP Examples.upstreamDown s r = []
  /\ (exists m, dns.ServeDNS net.ParseIP Examples.upstreamUp s r = [m]
        /\ dns.Rcode m = dns.RcodeSuccess /\ length (dns.Answer m) = 1%nat)
  /\ ~ (forall Exchange, exists m,
          dns.ServeDNS net.ParseIP Exchange s r = [m]
          /\ dns.Rcode m = dns.RcodeNameError).
Proof.
  cbv zeta. split; [reflexivity|]. split; [vm_compute; eauto|].
  split; [apply (bool_decide_unpack _); vm_compute; exact I|].
  split; [discriminate|]. split; [vm_compute; reflexivity|].
  split; [eexists; split; [vm_compute; reflexivity|split; reflexivity]|].
  intros H. destruct (H Examples.upstreamDown) as (m & Hm & _).
  vm_compute in Hm. discriminate Hm.
Qed.

(** C6 at concrete queries: an AAAA query for a table name is answered
    NXDOMAIN by the repository's server, and relayed by a server whose
    forward set lists the name. *)
Lemma ServeDNS_table_name_other_type_witness :
  dns.ServeDNS net.ParseIP Examples.upstreamUp Examples.server
    (Examples.request [Examples.question "rtupdate.wunderground.com." dns.TypeAAAA])
  = [dns.SetRcode dns.newMsg
       (Examples.request [Examples.question "rtupdate.wunderground.com." dns.TypeAAAA])
       dns.RcodeNameError]
  /\ dns.ServeDNS net.ParseIP Examples.upstreamDown Examples.overlapServer
       (Examples.request
          [Examples.question "weatherstation.wunderground.com." dns.TypeAAAA])
     = [].
Proof.
  split.
  - apply (proj1 (ServeDNS_table_name_other_type net.ParseIP Examples.upstreamUp
                    Examples.server
                    (Examples.request
                       [Examples.question "rtupdate.wunderground.com." dns.TypeAAAA])
                    (Examples.question "rtupdate.wunderground.com." dns.TypeAAAA)
                    eq_refl ltac:(vm_compute; eauto) ltac:(discriminate))).
    apply (bool_decide_unpack _); vm_compute; exact I.
  - apply (proj2 (ServeDNS_table_name_other_type net.ParseIP Examples.upstreamDown
                    Examples.overlapServer
                    (Examples.request
                       [Examples.question "weatherstation.wunderground.com."
                          dns.TypeAAAA])
                    (Examples.question "weatherstation.wunderground.com." dns.TypeAAAA)
                    eq_refl ltac:(vm_compute; eauto) ltac:(discriminate))).
    apply (bool_decide_unpack _); vm_compute; exact I.
Defined.

(** C7 at a time-synchronisation name: the upstream's response is written
    as received, and nothing is written when the upstream is down. *)
Lemma ServeDNS_forward_witness :
  (forall res,
     Examples.upstreamUp (Examples.request [Examples.question "time.nist.gov." dns.TypeA])
       "8.8.8.8:53" = inl res ->
     dns.ServeDNS net.ParseIP Examples.upstreamUp Examples.server
       (Examples.request [Examples.question "time.nist.gov." dns.TypeA]) = [res])
  /\ dns.ServeDNS net.ParseIP Examples.upstreamDown Examples.server
       (Examples.request [Examples.question "time.nist.gov." dns.TypeA]) = [].
Proof.
  split.
  - refine (proj1 (ServeDNS_forward net.ParseIP Examples.upstreamUp Examples.server
                     (Examples.request [Examples.question "time.nist.gov." dns.TypeA])
                     (Examples.question "time.nist.gov." dns.TypeA)
                     eq_refl (or_introl _) _)).
    + vm_compute; reflexivity.
    + apply (bool_decide_unpack _); vm_compute; exact I.
  - refine (proj2 (ServeDNS_forward net.ParseIP Examples.upstreamDown Examples.server
                     (Examples.request [Examples.question "time.nist.gov." dns.TypeA])
                     (Examples.question "time.nist.gov." dns.TypeA)
                     eq_refl (or_introl _) _) "i/o timeout" eq_refl).
    + vm_compute; reflexivity.
    + apply (bool_decide_unpack _); vm_compute; exact I.
Defined.

(** C8 at a request without question and at one with two. *)
Lemma ServeDNS_question_count_witness :
  dns.ServeDNS net.ParseIP Examples.upstreamUp Examples.server (Examples.request []) = []
  /\ dns.ServeDNS net.ParseIP Examples.upstreamUp Examples.server
       (Examples.request [Examples.question "rtupdate.wunderground.com." dns.TypeA;
                          Examples.question "time.nist.gov." dns.TypeA]) = [].
Proof.
  split.
  - apply (ServeDNS_question_count net.ParseIP Examples.upstreamUp). cbn. lia.
  - apply (ServeDNS_question_count net.ParseIP Examples.upstreamUp). cbn. lia.
Defined.

(** ** The measurement decoder and the submission endpoint *)

Section wu_properties.
Variable Now : GoTime.Time.
Variable ParseInLocation : string -> string -> GoTime.Time * option error.
Variable ParseFloat : string -> Z -> float64 * option error.

Lemma stof_unparsable (v : string) :
  is_Some (snd (ParseFloat v 32)) -> wu.stof ParseFloat v = (F32.zero, false).
Proof.
  intros [e He]. unfold wu.stof.
  destruct (ParseFloat v 32) as [f err]. cbn in He. subst err. reflexivity.
Qed.

Lemma with_stof_unparsable (v : string) assign (dm : wu.DeviceMeasurement) :
  is_Some (snd (ParseFloat v 32)) -> wu.with_stof ParseFloat v assign dm = dm.
Proof.
  intros H. unfold wu.with_stof. rewrite (stof_unparsable v H). reflexivity.
Qed.

Lemma with_stof_frame {A : Type} (proj : wu.DeviceMeasurement -> A)
  (v : string) assign (dm : wu.DeviceMeasurement) :
  (forall x d, proj (assign x d) = proj d) ->
  proj (wu.with_stof ParseFloat v assign dm) = proj dm.
Proof.
  intros H. unfold wu.with_stof.
  destruct (wu.stof ParseFloat v) as [x [|]]; [apply H | reflexivity].
Qed.

Lemma dateutc_now_iff (v : string) :
  String.eqb v "" || String.eqb v "now" = false <-> v <> "" /\ v <> "now".
Proof.
  rewrite orb_false_iff, !String.eqb_neq. reflexivity.
Qed.

Lemma fromQuery_error_iff (dm : wu.DeviceMeasurement) (q : url.Values) :
  is_Some (snd (wu.fromQuery Now ParseInLocation ParseFloat dm q))
  <-> url.Get q "dateutc" <> ""
      /\ url.Get q "dateutc" <> "now"
      /\ is_Some (snd (ParseInLocation wu.dateLayout (url.Get q "dateutc"))).
Proof.
  unfold wu.fromQuery. cbv zeta.
  destruct (String.eqb (url.Get q "dateutc") "" || String.eqb (url.Get q "dateutc") "now")
    eqn:E.
  - cbn. split.
    + intros [e He]. discriminate He.
    + intros (H1 & H2 & _). apply orb_true_iff in E as [E|E];
        apply String.eqb_eq in E; contradiction.
  - apply dateutc_now_iff in E as [H1 H2].
    destruct (ParseInLocation wu.dateLayout (url.Get q "dateutc")) as [t [e|]]; cbn.
    + split; [intros _; repeat split; eauto | intros _; eauto].
    + split; [intros [e He]; discriminate He | intros (_ & _ & [e He]); discriminate He].
Qed.

Lemma fromQuery_field_frame (p : wu.NumericParam) (dm : wu.DeviceMeasurement)
  (q : url.Values) :
  is_Some (snd (ParseFloat (url.Get q (wu.param_name p)) 32)) ->
  wu.param_field p (fst (wu.fromQuery Now ParseInLocation ParseFloat dm q))
  = wu.param_field p dm.
Proof.
  intros H. unfold wu.fromQuery. cbv zeta.
  destruct (String.eqb (url.Get q "dateutc") "" || String.eqb (url.Get q "dateutc") "now").
  - cbn [fst]. destruct p; cbn [wu.param_field wu.param_name] in *;
      rewrite ?(with_stof_unparsable _ _ _ H);
      rewrite ?with_stof_frame by (intros; reflexivity);
      destruct (url.Has q "realtime"); reflexivity.
  - destruct (ParseInLocation wu.dateLayout (url.Get q "dateutc")) as [t [e|]];
      cbn [fst].
    + destruct p; reflexivity.
    + destruct p; cbn [wu.param_field wu.param_name] in *;
        rewrite ?(with_stof_unparsable _ _ _ H);
        rewrite ?with_stof_frame by (intros; reflexivity);
        destruct (url.Has q "realtime"); reflexivity.
Qed.

(** C3, as the code has it.  Decoding fails if and only if the first value
    of [dateutc] is not empty, is not the literal "now", and is rejected by
    the date-time parser at the layout [2006-01-02 15:04:05] in UTC (an
    absent [dateutc], and one whose value is empty, decode to the current
    time).  A numeric parameter whose value the float parser rejects never
    makes decoding fail and leaves its field of the record at zero. *)
Theorem fromQuery_fails_iff (q : url.Values) :
  (is_Some (snd (wu.fromQuery Now ParseInLocation ParseFloat wu.zeroDM q))
   <-> url.Get q "dateutc" <> ""
       /\ url.Get q "dateutc" <> "now"
       /\ is_Some (snd (ParseInLocation wu.dateLayout (url.Get q "dateutc"))))
  /\ (forall p : wu.NumericParam,
        is_Some (snd (ParseFloat (url.Get q (wu.param_name p)) 32)) ->
        wu.param_field p (fst (wu.fromQuery Now ParseInLocation ParseFloat wu.zeroDM q))
        = F32.zero).
Proof.
  split.
  - apply fromQuery_error_iff.
  - intros p H. rewrite (fromQuery_field_frame p wu.zeroDM q H).
    destruct p; reflexivity.
Qed.

Lemma Get_absent (q : url.Values) (key : string) :
  url.Has q key = false -> url.Get q key = "".
Proof.
  unfold url.Has, url.Get. destruct (q !! key); [discriminate | reflexivity].
Qed.

Lemma ServeHTTP_invalid (q : url.Values) :
  url.Get q "action" <> "updateraww" \/ url.Has q "ID" = false
  \/ url.Has q "PASSWORD" = false ->
  wu.ServeHTTP Now ParseInLocation ParseFloat q
  = wu.http_Error "Bad Request" wu.StatusBadRequest.
Proof.
  intros H. unfold wu.ServeHTTP.
  assert (Hc : negb (String.eqb (url.Get q "action") "updateraww")
               || negb (url.Has q "ID") || negb (url.Has q "PASSWORD") = true).
  { destruct H as [H|[H|H]].
    - apply String.eqb_neq in H. rewrite H. reflexivity.
    - rewrite H. cbn. rewrite orb_true_r. reflexivity.
    - rewrite H. cbn. rewrite orb_true_r. reflexivity. }
  rewrite Hc. reflexivity.
Qed.

Lemma ServeHTTP_valid (q : url.Values) :
  validRequest q ->
  wu.ServeHTTP Now ParseInLocation ParseFloat q
  = match wu.fromQuery Now ParseInLocation ParseFloat wu.zeroDM q with
    | (_, Some _) => wu.http_Error "Bad Request" wu.StatusBadRequest
    | (dm, None) =>
        [wu.GoHandleSubmission (url.Get q "ID") dm;
         wu.WriteHeader wu.StatusOK;
         wu.WriteString ("success" ++ LF)]
    end.
Proof.
  intros (Ha & Hi & Hp). unfold wu.ServeHTTP.
  rewrite Ha, Hi, Hp. cbn [negb orb String.eqb].
  replace (String.eqb "updateraww" "updateraww") with true by reflexivity.
  cbn [negb orb].
  destruct (wu.fromQuery Now ParseInLocation ParseFloat wu.zeroDM q) as [dm [e|]];
    reflexivity.
Qed.

(** C2.  A request to the submission path whose [action] parameter is
    absent or is not the literal "updateraww", or whose [ID] parameter is
    absent, or whose [PASSWORD] parameter is absent, is answered 400 and the
    callback is not started.  A request that passes this validation and
    decodes is answered 200 with the body "success" and a line feed, and the
    callback is started once, with the station ID and the decoded record.  A
    request that passes the validation and does not decode is answered 400
    and the callback is not started. *)
Theorem ServeHTTP_contract (q : url.Values) :
  let es := wu.ServeHTTP Now ParseInLocation ParseFloat q in
  (url.Has q "action" = false \/ url.Get q "action" <> "updateraww"
   \/ url.Has q "ID" = false \/ url.Has q "PASSWORD" = false ->
   wu.status es = Some 400%Z /\ wu.callbacks es = [])
  /\ (validRequest q ->
      forall dm, wu.fromQuery Now ParseInLocation ParseFloat wu.zeroDM q = (dm, None) ->
      wu.status es = Some 200%Z
      /\ wu.body es = "success" ++ LF
      /\ wu.callbacks es = [(url.Get q "ID", dm)])
  /\ (validRequest q ->
      forall dm err,
      wu.fromQuery Now ParseInLocation ParseFloat wu.zeroDM q = (dm, Some err) ->
      wu.status es = Some 400%Z /\ wu.callbacks es = []).
Proof.
  cbv zeta. split; [|split].
  - intros H. rewrite ServeHTTP_invalid; [split; reflexivity|].
    destruct H as [H|[H|[H|H]]]; auto.
    left. rewrite (Get_absent q "action" H). discriminate.
  - intros Hv dm Hdm. rewrite (ServeHTTP_valid q Hv), Hdm. repeat split.
  - intros Hv dm err Hdm. rewrite (ServeHTTP_valid q Hv), Hdm. split; reflexivity.
Qed.
End wu_properties.

(** C3 as stated fails: a [dateutc] parameter that is present with an empty
    value is not "now" and is not a date-time, and yet decoding succeeds,
    with the current time as the submission time. *)
Lemma fromQuery_empty_dateutc_counterexample :
  let q : url.Values := <["dateutc" := [""]]> ∅ in
  let decode := wu.fromQuery Examples.now GoTime.ParseInLocation strconv.ParseFloat in
  url.Has q "dateutc" = true
  /\ url.Get q "dateutc" <> "now"
  /\ is_Some (snd (GoTime.ParseInLocation wu.dateLayout (url.Get q "dateutc")))
  /\ decode wu.zeroDM q = (wu.set_DateUTC Examples.now wu.zeroDM, None)
  /\ ~ (is_Some (snd (decode wu.zeroDM q))
        <-> url.Has q "dateutc" = true
            /\ url.Get q "dateutc" <> "now"
            /\ is_Some (snd (GoTime.ParseInLocation wu.dateLayout (url.Get q "dateutc")))).
Proof.
  cbv zeta.
  assert (H1 : url.Has (<["dateutc" := [""]]> ∅) "dateutc" = true)
    by (vm_compute; reflexivity).
  assert (H2 : url.Get (<["dateutc" := [""]]> ∅) "dateutc" <> "now")
    by (vm_compute; discriminate).
  assert (H3 : is_Some (snd (GoTime.ParseInLocation wu.dateLayout
                               (url.Get (<["dateutc" := [""]]> ∅) "dateutc"))))
    by (vm_compute; eauto).
  assert (H4 : wu.fromQuery Examples.now GoTime.ParseInLocation strconv.ParseFloat
                 wu.zeroDM (<["dateutc" := [""]]> ∅)
               = (wu.set_DateUTC Examples.now wu.zeroDM, None))
    by (vm_compute; reflexivity).
  repeat split; try assumption.
  intros [_ Hback]. rewrite H4 in Hback.
  destruct (Hback (conj H1 (conj H2 H3))) as [e He]. discriminate He.
Qed.

(** C3 at the test query with a date in another format, and with a
    temperature that is not a number. *)
Lemma fromQuery_fails_iff_witness :
  is_Some (snd (wu.fromQuery Examples.now GoTime.ParseInLocation strconv.ParseFloat
                  wu.zeroDM (<["dateutc" := ["23/01/2025 23:09"]]> Examples.testQuery)))
  /\ wu.Temperature
       (fst (wu.fromQuery Examples.now GoTime.ParseInLocation strconv.ParseFloat
               wu.zeroDM (<["tempf" := ["warm"]]> Examples.testQuery)))
     = F32.zero.
Proof.
  split.
  - apply (proj1 (fromQuery_fails_iff Examples.now GoTime.ParseInLocation
                    strconv.ParseFloat
                    (<["dateutc" := ["23/01/2025 23:09"]]> Examples.testQuery))).
    split; [vm_compute; discriminate|].
    split; [vm_compute; discriminate|].
    vm_compute. eexists. reflexivity.
  - apply (proj2 (fromQuery_fails_iff Examples.now GoTime.ParseInLocation
                    strconv.ParseFloat
                    (<["tempf" := ["warm"]]> Examples.testQuery)) wu.tempf).
    vm_compute. eexists. reflexivity.
Defined.

(** C2 at the empty request of the repository's test, at its good
    submission, whose temperature decodes to 17.5, and at the good
    submission with a date in another format. *)
Lemma ServeHTTP_contract_witness :
  let serve := wu.ServeHTTP Examples.now GoTime.ParseInLocation strconv.ParseFloat in
  let dm := fst (wu.fromQuery Examples.now GoTime.ParseInLocation strconv.ParseFloat
                   wu.zeroDM Examples.testQuery) in
  (wu.status (serve ∅) = Some 400%Z /\ wu.callbacks (serve ∅) = [])
  /\ (wu.status (serve Examples.testQuery) = Some 200%Z
      /\ wu.body (serve Examples.testQuery) = "success" ++ LF
      /\ wu.callbacks (serve Examples.testQuery) = [("test", dm)]
      /\ wu.Temperature dm = F32.of_ratio 175 10)
  /\ (wu.status (serve (<["dateutc" := ["23/01/2025 23:09"]]> Examples.testQuery))
      = Some 400%Z
      /\ wu.callbacks (serve (<["dateutc" := ["23/01/2025 23:09"]]> Examples.testQuery))
         = []).
Proof.
  cbv zeta. split; [|split].
  - apply (proj1 (ServeHTTP_contract Examples.now GoTime.ParseInLocation
                    strconv.ParseFloat ∅)).
    left. vm_compute. reflexivity.
  - destruct (proj1 (proj2 (ServeHTTP_contract Examples.now GoTime.ParseInLocation
                              strconv.ParseFloat Examples.testQuery))
                ltac:(repeat split; vm_compute; reflexivity)
                (fst (wu.fromQuery Examples.now GoTime.ParseInLocation
                        strconv.ParseFloat wu.zeroDM Examples.testQuery))
                ltac:(vm_compute; reflexivity))
      as (Hs & Hb & Hc).
    split; [exact Hs|]. split; [exact Hb|]. split; [exact Hc|].
    vm_compute. reflexivity.
  - apply (proj2 (proj2 (ServeHTTP_contract Examples.now GoTime.ParseInLocation
                           strconv.ParseFloat
                           (<["dateutc" := ["23/01/2025 23:09"]]> Examples.testQuery)))
             ltac:(repeat split; vm_compute; reflexivity)
             (wu.set_DateUTC GoTime.zeroTime wu.zeroDM)
             "parse dateutc: parsing time 23/01/2025 23:09").
    vm_compute. reflexivity.
Defined.

(** ** The metrics sink *)

Lemma F64_add_zero (v : float64) :
  v <> S754_zero true -> F64.add F64.zero v = v.
Proof.
  intros Hv. destruct v as [[|]| | |]; try reflexivity. contradiction.
Qed.

Lemma GaugeVec_Set_valid (l : string) (v : float64) (vec : exporter.GaugeVec) :
  utf8.ValidString l = true -> exporter.GaugeVec_Set l v vec = inl (<[l := v]> vec).
Proof. intros H. unfold exporter.GaugeVec_Set, exporter.With. rewrite H. reflexivity. Qed.

Lemma CounterVec_reset_then_add (l : string) (v : float64) (vec : exporter.CounterVec) :
  utf8.ValidString l = true ->
  F64.ltb v F64.zero = false ->
  exporter.CounterVec_Add l v (exporter.CounterVec_Delete l vec)
  = inl (<[l := F64.add F64.zero v]> (delete l vec)).
Proof.
  intros Hl Hv. unfold exporter.CounterVec_Add, exporter.CounterVec_Delete, exporter.With.
  rewrite Hl. cbn [exporter.andThen]. rewrite Hv, lookup_delete_eq. reflexivity.
Qed.

(** The sink on a station ID that is valid UTF-8 and a rain total that is
    not below zero. *)
Lemma handleWUSubmission_ok (m : exporter.Metrics) (s : string)
  (dm : wu.DeviceMeasurement) :
  utf8.ValidString s = true ->
  sinkAccepts dm ->
  exporter.handleWUSubmission m s dm
  = inl (exporter.mkMetrics
           (<[s := F64.of_f32 (wu.Barometric dm)]> (exporter.BarometricPressure m))
           (<[s := F64.of_f32 (wu.DewPoint dm)]> (exporter.DewPoint m))
           (<[s := F64.of_f32 (F32.div (wu.Humidity dm) exporter.hundred)]>
              (exporter.Humidity m))
           (<[s := F64.of_f32 (F32.div (wu.IndoorHumidity dm) exporter.hundred)]>
              (exporter.IndoorHumidity m))
           (<[s := F64.of_f32 (wu.IndoorTemp dm)]> (exporter.IndoorTemperature m))
           (<[s := F64.of_f32 (wu.RainPastHour dm)]> (exporter.RainPastHour m))
           (<[s := F64.add F64.zero (F64.of_f32 (wu.RainToday dm))]>
              (delete s (exporter.Rain m)))
           (<[s := F64.of_f32 (wu.Temperature dm)]> (exporter.Temperature m))
           (<[s := F64.of_f32 (wu.WindDirection dm)]> (exporter.WindDirection m))
           (<[s := F64.of_f32 (wu.WindGust dm)]> (exporter.WindGustSpeed m))
           (<[s := F64.of_f32 (wu.WindSpeed dm)]> (exporter.WindSpeed m))).
Proof.
  intros Hs Hrain. unfold exporter.handleWUSubmission. cbv zeta.
  repeat (rewrite (GaugeVec_Set_valid s _ _ Hs); cbn [exporter.andThen]).
  cbn [exporter.upd_Rain exporter.Rain exporter.upd_BarometricPressure
       exporter.upd_DewPoint exporter.upd_Humidity exporter.upd_IndoorHumidity
       exporter.upd_IndoorTemperature exporter.upd_RainPastHour].
  rewrite (CounterVec_reset_then_add s _ _ Hs Hrain). cbn [exporter.andThen].
  repeat (rewrite (GaugeVec_Set_valid s _ _ Hs); cbn [exporter.andThen]).
  reflexivity.
Qed.

(** The sink on a station ID that is not valid UTF-8: the first [With]
    panics. *)
Lemma handleWUSubmission_label_panic (m : exporter.Metrics) (s : string)
  (dm : wu.DeviceMeasurement) :
  utf8.ValidString s = false ->
  exporter.handleWUSubmission m s dm = inr (exporter.LabelValueNotUTF8 s).
Proof.
  intros Hs. unfold exporter.handleWUSubmission, exporter.GaugeVec_Set, exporter.With.
  cbv zeta. rewrite Hs. reflexivity.
Qed.

(** The sink on a rain total below zero: the counter's [Add] panics. *)
Lemma handleWUSubmission_rain_panic (m : exporter.Metrics) (s : string)
  (dm : wu.DeviceMeasurement) :
  utf8.ValidString s = true ->
  F64.ltb (F64.of_f32 (wu.RainToday dm)) F64.zero = true ->
  exporter.handleWUSubmission m s dm = inr exporter.CounterCannotDecrease.
Proof.
  intros Hs Hrain. unfold exporter.handleWUSubmission. cbv zeta.
  repeat (rewrite (GaugeVec_Set_valid s _ _ Hs); cbn [exporter.andThen]).
  unfold exporter.CounterVec_Add, exporter.With. rewrite Hs.
  cbn [exporter.andThen]. rewrite Hrain. reflexivity.
Qed.

(** A call of the sink that returns had a valid station ID and a rain total
    that is not below zero. *)
Lemma handleWUSubmission_returns (m m' : exporter.Metrics) (s : string)
  (dm : wu.DeviceMeasurement) :
  exporter.handleWUSubmission m s dm = inl m' ->
  utf8.ValidString s = true /\ sinkAccepts dm.
Proof.
  intros H. destruct (utf8.ValidString s) eqn:Hs.
  - split; [reflexivity|]. unfold sinkAccepts.
    destruct (F64.ltb (F64.of_f32 (wu.RainToday dm)) F64.zero) eqn:Hrain;
      [|reflexivity].
    rewrite (handleWUSubmission_rain_panic m s dm Hs Hrain) in H. discriminate H.
  - rewrite (handleWUSubmission_label_panic m s dm Hs) in H. discriminate H.
Qed.

(** X23.  For every decoded submission of a station [s] whose ID is valid
    UTF-8 and whose rain since the reference point is not below zero, the
    sink returns without a panic, having set the humidity and indoor
    humidity gauges of [s] to the decoded percentage divided by 100, the
    barometric pressure, dew point, temperature, indoor temperature, wind
    direction, wind speed, wind gust and past-hour-rain gauges of [s] to
    the decoded values, and the rainfall counter of [s] to zero plus the
    decoded rain since the reference point, whatever the counter held
    before: that is the decoded value itself, unless it is a negative
    zero. *)
Theorem handleWUSubmission_series (m : exporter.Metrics) (s : string)
  (dm : wu.DeviceMeasurement) :
  utf8.ValidString s = true ->
  F64.ltb (F64.of_f32 (wu.RainToday dm)) F64.zero = false ->
  exists m', exporter.handleWUSubmission m s dm = inl m'
    /\ exporter.Humidity m' !! s
       = Some (F64.of_f32 (F32.div (wu.Humidity dm) (F32.of_ratio 100 1)))
    /\ exporter.IndoorHumidity m' !! s
       = Some (F64.of_f32 (F32.div (wu.IndoorHumidity dm) (F32.of_ratio 100 1)))
    /\ exporter.BarometricPressure m' !! s = Some (F64.of_f32 (wu.Barometric dm))
    /\ exporter.DewPoint m' !! s = Some (F64.of_f32 (wu.DewPoint dm))
    /\ exporter.Temperature m' !! s = Some (F64.of_f32 (wu.Temperature dm))
    /\ exporter.IndoorTemperature m' !! s = Some (F64.of_f32 (wu.IndoorTemp dm))
    /\ exporter.WindDirection m' !! s = Some (F64.of_f32 (wu.WindDirection dm))
    /\ exporter.WindSpeed m' !! s = Some (F64.of_f32 (wu.WindSpeed dm))
    /\ exporter.WindGustSpeed m' !! s = Some (F64.of_f32 (wu.WindGust dm))
    /\ exporter.RainPastHour m' !! s = Some (F64.of_f32 (wu.RainPastHour dm))
    /\ exporter.Rain m' !! s
       = Some (F64.add F64.zero (F64.of_f32 (wu.RainToday dm)))
    /\ (F64.of_f32 (wu.RainToday dm) <> S754_zero true ->
        exporter.Rain m' !! s = Some (F64.of_f32 (wu.RainToday dm))).
Proof.
  intros Hs Hrain. rewrite (handleWUSubmission_ok m s dm Hs Hrain).
  eexists. split; [reflexivity|].
  cbn [exporter.BarometricPressure exporter.DewPoint exporter.Humidity
       exporter.IndoorHumidity exporter.IndoorTemperature exporter.RainPastHour
       exporter.Rain exporter.Temperature exporter.WindDirection
       exporter.WindGustSpeed exporter.WindSpeed].
  unfold exporter.hundred. rewrite !lookup_insert_eq.
  do 11 (split; [reflexivity|]).
  intros Hz. rewrite (F64_add_zero _ Hz). reflexivity.
Qed.

(** C5 at two submissions the endpoint accepts and the sink does not
    survive.  The test query with a rain total of -1 inch decodes, is
    answered 200, and its callback panics at the counter: a counter cannot
    decrease.  The test query with the one-byte station ID 0xFF decodes, is
    answered 200, and its callback panics at the first gauge: the label
    value is not valid UTF-8.  In both the panic is in a goroutine that
    recovers nothing, and no series of the station is left to read. *)
Theorem handleWUSubmission_crashing_submissions :
  let serve := wu.ServeHTTP Examples.now GoTime.ParseInLocation strconv.ParseFloat in
  let rainy := Examples.rainQuery "-1" in
  let odd := <["ID" := [Examples.byteFF]]> Examples.testQuery in
  (wu.status (serve rainy) = Some 200%Z
   /\ wu.callbacks (serve rainy) = [("test", fst (Examples.decode rainy))]
   /\ wu.RainToday (fst (Examples.decode rainy)) = F32.of_ratio (-254) 10
   /\ exporter.handleWUSubmission exporter.newMetrics "test"
        (fst (Examples.decode rainy))
      = inr exporter.CounterCannotDecrease)
  /\ (wu.status (serve odd) = Some 200%Z
      /\ wu.callbacks (serve odd) = [(Examples.byteFF, fst (Examples.decode odd))]
      /\ wu.RainToday (fst (Examples.decode odd)) = F32.zero
      /\ exporter.handleWUSubmission exporter.newMetrics Examples.byteFF
           (fst (Examples.decode odd))
         = inr (exporter.LabelValueNotUTF8 Examples.byteFF)).
Proof.
  cbv zeta. repeat split; vm_compute; reflexivity.
Qed.

(** X23 at the two submissions of the specification: a rain total of 0.0
    and then of 1.0 inch for the same station leave its counter at the
    [float32] 25.4, and its humidity gauge at 0.64. *)
Lemma handleWUSubmission_series_witness :
  exists m1 m2,
    exporter.handleWUSubmission exporter.newMetrics "test"
      (fst (Examples.decode (Examples.rainQuery "0.0"))) = inl m1
    /\ exporter.handleWUSubmission m1 "test"
         (fst (Examples.decode (Examples.rainQuery "1.0"))) = inl m2
    /\ exporter.Rain m1 !! "test" = Some F64.zero
    /\ exporter.Rain m2 !! "test" = Some (F64.of_f32 (F32.of_ratio 254 10))
    /\ exporter.Humidity m2 !! "test" = Some (F64.of_f32 (F32.of_ratio 64 100)).
Proof.
  destruct (handleWUSubmission_series exporter.newMetrics "test"
              (fst (Examples.decode (Examples.rainQuery "0.0"))) eq_refl eq_refl)
    as (m1 & Hm1 & _ & _ & _ & _ & _ & _ & _ & _ & _ & _ & Hrain1 & _).
  destruct (handleWUSubmission_series m1 "test"
              (fst (Examples.decode (Examples.rainQuery "1.0"))) eq_refl eq_refl)
    as (m2 & Hm2 & Hhum & _ & _ & _ & _ & _ & _ & _ & _ & _ & Hrain2 & _).
  exists m1, m2. split; [exact Hm1|]. split; [exact Hm2|].
  split; [rewrite Hrain1; vm_compute; reflexivity|].
  split; [rewrite Hrain2; vm_compute; reflexivity|].
  rewrite Hhum. vm_compute. reflexivity.
Defined.

(** ** The orchestrator *)

Section exporter_properties.
Variable outboundIP : string + error.
Variable genTLSCertificate : exporter.Certificate + error.
Variable Wait : list exporter.event -> option error.

Lemma nonempty_default (s d : string) :
  d <> "" -> exporter.nonempty (if String.eqb s "" then d else s) = true.
Proof.
  intros Hd. unfold exporter.nonempty. destruct (String.eqb s "") eqn:E.
  - apply String.eqb_neq in Hd. rewrite Hd. reflexivity.
  - rewrite E. reflexivity.
Qed.

(** The exporters that [NewExporter] returns have both submission
    addresses set: an empty one is replaced by its default. *)
Lemma NewExporter_listen_addresses (c : exporter.Config) (e : exporter.Exporter) :
  exporter.NewExporter outboundIP c = inl e ->
  exporter.nonempty (exporter.wuListenAddress e) = true
  /\ exporter.nonempty (exporter.wuTLSListenAddress e) = true
  /\ exporter.running e = false.
Proof.
  unfold exporter.NewExporter. intros H.
  destruct (if String.eqb (exporter.ExporterIP c) ""
            then match outboundIP with
                 | inl ip => inl ip
                 | inr err => inr ("could not determine exporter IP address: " ++ err)
                 end
            else inl (exporter.ExporterIP c)) as [ip|err]; [|discriminate H].
  injection H as <-. cbn.
  split; [apply nonempty_default; discriminate|].
  split; [apply nonempty_default; discriminate|reflexivity].
Qed.

Lemma serve_running (e : exporter.Exporter) :
  exporter.running (fst (fst (exporter.serve genTLSCertificate Wait e)))
  = exporter.running e.
Proof.
  unfold exporter.serve.
  destruct (exporter.nonempty (exporter.wuTLSListenAddress e));
    [destruct genTLSCertificate|]; reflexivity.
Qed.

(** Once entered with the issuer succeeding, the start routine starts the
    TLS-terminated listener exactly when the plaintext address is set. *)
Lemma serve_tls_listener (cert : exporter.Certificate) (e : exporter.Exporter) :
  exporter.tlsListenerStarted (snd (fst (exporter.serve (inl cert) Wait e)))
  = exporter.nonempty (exporter.wuListenAddress e).
Proof.
  unfold exporter.serve.
  destruct (exporter.nonempty (exporter.wuTLSListenAddress e));
    cbn -[exporter.nonempty];
    destruct (exporter.nonempty (exporter.dnsListenAddress e));
    destruct (exporter.nonempty (exporter.wuListenAddress e)); reflexivity.
Qed.

(** C10.  The running flag guards the start routine by compare-and-set.
    Called on a running exporter, the routine returns "already running",
    starts nothing and leaves the exporter as it was.  Called on an
    exporter that is not running, it sets the flag, runs the rest of the
    routine with the flag set, and resets the flag when it returns.  So a
    call that starts a listener found the flag unset, and leaves it unset
    on return. *)
Theorem ListenAndServe_running_guard (e : exporter.Exporter) :
  (exporter.running e = true ->
   exporter.ListenAndServe genTLSCertificate Wait e = (e, [], Some "already running"))
  /\ (exporter.running e = false ->
      exists e2 evs err,
        exporter.serve genTLSCertificate Wait (exporter.set_running true e)
        = (e2, evs, err)
        /\ exporter.running e2 = true
        /\ exporter.ListenAndServe genTLSCertificate Wait e
           = (exporter.set_running false e2, evs, err))
  /\ (forall e' evs err,
        exporter.ListenAndServe genTLSCertificate Wait e = (e', evs, err) ->
        existsb exporter.isListener evs = true ->
        exporter.running e = false /\ exporter.running e' = false).
Proof.
  assert (Hrun : exporter.running e = true ->
                 exporter.ListenAndServe genTLSCertificate Wait e
                 = (e, [], Some "already running")).
  { intros Hr. unfold exporter.ListenAndServe, exporter.CompareAndSwap.
    rewrite Hr. reflexivity. }
  assert (Hstop : exporter.running e = false ->
                  exists e2 evs err,
                    exporter.serve genTLSCertificate Wait (exporter.set_running true e)
                    = (e2, evs, err)
                    /\ exporter.running e2 = true
                    /\ exporter.ListenAndServe genTLSCertificate Wait e
                       = (exporter.set_running false e2, evs, err)).
  { intros Hr. unfold exporter.ListenAndServe, exporter.CompareAndSwap.
    rewrite Hr. cbn [Bool.eqb negb].
    pose proof (serve_running (exporter.set_running true e)) as Hs.
    destruct (exporter.serve genTLSCertificate Wait (exporter.set_running true e))
      as [[e2 evs] err].
    cbn in Hs. exists e2, evs, err. rewrite Hs. repeat split. }
  split; [exact Hrun|]. split; [exact Hstop|].
  intros e' evs err Hcall Hev. destruct (exporter.running e) eqn:Hr.
  - rewrite (Hrun eq_refl) in Hcall. injection Hcall as <- <- <-. discriminate Hev.
  - destruct (Hstop eq_refl) as (e2 & evs2 & err2 & _ & _ & Hls).
    rewrite Hls in Hcall. injection Hcall as <- <- <-. split; reflexivity.
Qed.
End exporter_properties.

(** Out of [NewExporter]'s reach: two exporters with an empty submission
    address, which only code inside the package could build.  With the
    plaintext address empty and the TLS address set, a certificate is
    issued and the TLS-terminated listener is not started; with the
    plaintext address set and the TLS address empty, no certificate is
    issued and the TLS-terminated listener is started without a TLS
    configuration: the guard of that listener reads the plaintext
    address. *)
Lemma ListenAndServe_tls_listener_guard :
  let plainless := Examples.listenAndServe (Examples.exporterAt "" ":443") in
  let tlsless := Examples.listenAndServe (Examples.exporterAt ":80" "") in
  snd (fst plainless)
  = [exporter.GenTLSCertificate;
     exporter.GoServe ""
       (exporter.mkHTTPServer 5
          (Some (exporter.mkTLSConfig [Examples.certificate] exporter.VersionTLS10)))]
  /\ exporter.tlsListenerStarted (snd (fst plainless)) = false
  /\ snd (fst tlsless)
     = [exporter.GoServe ":80" (exporter.mkHTTPServer 5 None);
        exporter.GoServeTLS "" (exporter.mkHTTPServer 5 None)]
  /\ exporter.tlsListenerStarted (snd (fst tlsless)) = true
  /\ exporter.certificateBeforeTLS false (snd (fst tlsless)) = false.
Proof.
  cbv zeta. repeat split; vm_compute; reflexivity.
Qed.

(** C10 at an exporter that is running and at one that is not. *)
Lemma ListenAndServe_running_guard_witness :
  Examples.listenAndServe (exporter.set_running true (Examples.exporterAt ":80" ":443"))
  = (exporter.set_running true (Examples.exporterAt ":80" ":443"), [],
     Some "already running")
  /\ (exists e2 evs err,
        exporter.serve Examples.issuer Examples.shutdown
          (exporter.set_running true (Examples.exporterAt ":80" ":443"))
        = (e2, evs, err)
        /\ exporter.running e2 = true
        /\ Examples.listenAndServe (Examples.exporterAt ":80" ":443")
           = (exporter.set_running false e2, evs, err))
  /\ exporter.running (fst (fst (Examples.listenAndServe
                                   (Examples.exporterAt ":80" ":443")))) = false.
Proof.
  split; [|split].
  - apply (proj1 (ListenAndServe_running_guard Examples.issuer Examples.shutdown
                    (exporter.set_running true (Examples.exporterAt ":80" ":443")))).
    reflexivity.
  - apply (proj1 (proj2 (ListenAndServe_running_guard Examples.issuer Examples.shutdown
                           (Examples.exporterAt ":80" ":443")))).
    reflexivity.
  - apply (proj2 (proj2 (ListenAndServe_running_guard Examples.issuer
                           Examples.shutdown (Examples.exporterAt ":80" ":443")))
             (fst (fst (Examples.listenAndServe (Examples.exporterAt ":80" ":443"))))
             (snd (fst (Examples.listenAndServe (Examples.exporterAt ":80" ":443"))))
             (snd (Examples.listenAndServe (Examples.exporterAt ":80" ":443")))).
    + unfold Examples.listenAndServe.
      destruct (exporter.ListenAndServe Examples.issuer Examples.shutdown
                  (Examples.exporterAt ":80" ":443")) as [[e' evs] err].
      reflexivity.
    + vm_compute. reflexivity.
Defined.

(* ===================================================================== *)
(** * Further properties                                                  *)
(* ===================================================================== *)

(** ** The DNS server beyond the claims *)

Lemma foldl_forward_set (l : list string) (acc : gset string) (x : string) :
  x ∈ foldl (fun fd domain => {[domain]} ∪ fd) acc l <-> x ∈ acc \/ x ∈ l.
Proof.
  revert acc. induction l as [|d l IH]; intros acc; cbn.
  - set_solver.
  - rewrite IH. set_solver.
Qed.

(** X1.  [NewServer] turns the list of forward domains into a set with the
    same members, whatever the order and the repetitions of the list, and
    takes the record table and the upstream resolver as they are. *)
Theorem NewServer_forward_set (c : dns.Config) :
  (forall domain,
     domain ∈ dns.forwardDomains (dns.NewServer c) <-> domain ∈ dns.ForwardDomains c)
  /\ dns.records (dns.NewServer c) = dns.Records c
  /\ dns.upstreamResolver (dns.NewServer c) = dns.UpstreamResolver c.
Proof.
  split; [|split; reflexivity].
  intros domain. unfold dns.NewServer. cbn. rewrite foldl_forward_set. set_solver.
Qed.

Section dns_more.
Variable ParseIP : string -> net.IP.
Variable Exchange : dns.Msg -> string -> dns.Msg + error.

(** X2.  Whatever the request, the table and the upstream, [ServeDNS]
    writes at most one message. *)
Theorem ServeDNS_at_most_one_reply (s : dns.Server) (r : dns.Msg) :
  (length (dns.ServeDNS ParseIP Exchange s r) <= 1)%nat.
Proof.
  unfold dns.ServeDNS, dns.forwardOrBlackhole.
  destruct (dns.Questions r) as [|q [|q' qs]]; cbn; [lia| |lia].
  destruct (dns.Qtype q =? dns.TypeA)%Z; [destruct (dns.records s !! dns.Name q)|];
    cbn; try lia;
    (destruct (decide (dns.Name q ∈ dns.forwardDomains s)); cbn; [|lia];
     destruct (Exchange r (dns.upstreamResolver s)); cbn; lia).
Qed.

(** X3.  The upstream resolver has no part in the reply to a request whose
    single question names a domain outside the forward set, or is an A
    query for a name of the table: the messages written are the same for
    any two upstreams. *)
Theorem ServeDNS_upstream_untouched (Exchange' : dns.Msg -> string -> dns.Msg + error)
  (s : dns.Server) (r : dns.Msg) (q : dns.Question) :
  dns.Questions r = [q] ->
  dns.Name q ∉ dns.forwardDomains s
  \/ (dns.Qtype q = dns.TypeA /\ is_Some (dns.records s !! dns.Name q)) ->
  dns.ServeDNS ParseIP Exchange s r = dns.ServeDNS ParseIP Exchange' s r.
Proof.
  intros Hq H. rewrite !(ServeDNS_single _ _ s r q Hq).
  destruct H as [Hout|[HA [ip Hip]]].
  - rewrite !(forwardOrBlackhole_blackhole _ s r _ Hout). reflexivity.
  - rewrite HA, Hip. reflexivity.
Qed.

(** X4.  A request whose single question names a domain outside the forward
    set always gets exactly one reply, and the reply is NXDOMAIN without
    answer records unless the question is an A query for a name of the
    table, in which case its return code is success. *)
Theorem ServeDNS_blackhole_complete (s : dns.Server) (r : dns.Msg) (q : dns.Question) :
  dns.Questions r = [q] ->
  dns.Name q ∉ dns.forwardDomains s ->
  exists m, dns.ServeDNS ParseIP Exchange s r = [m]
    /\ dns.Id m = dns.Id r /\ dns.Response m = true /\ dns.Questions m = [q]
    /\ (dns.Qtype q = dns.TypeA /\ is_Some (dns.records s !! dns.Name q) ->
        dns.Rcode m = dns.RcodeSuccess /\ length (dns.Answer m) = 1%nat)
    /\ (~ (dns.Qtype q = dns.TypeA /\ is_Some (dns.records s !! dns.Name q)) ->
        dns.Rcode m = dns.RcodeNameError /\ dns.Answer m = []).
Proof.
  intros Hq Hout. rewrite (ServeDNS_single _ _ s r q Hq).
  rewrite (forwardOrBlackhole_blackhole _ s r _ Hout).
  destruct (dns.Qtype q =? dns.TypeA)%Z eqn:Hty.
  - apply Z.eqb_eq in Hty. destruct (dns.records s !! dns.Name q) as [ip|] eqn:Hrec.
    + eexists. split; [reflexivity|]. cbn. rewrite Hq.
      do 3 (split; [reflexivity|]). split.
      * intros _. split; reflexivity.
      * intros Hn. exfalso. apply Hn. split; [exact Hty|eauto].
    + eexists. split; [reflexivity|]. cbn. rewrite Hq.
      do 3 (split; [reflexivity|]). split.
      * intros [_ [ip Hip]]. discriminate Hip.
      * intros _. split; reflexivity.
  - apply Z.eqb_neq in Hty. eexists. split; [reflexivity|]. cbn. rewrite Hq.
    do 3 (split; [reflexivity|]). split.
    + intros [HA _]. contradiction.
    + intros _. split; reflexivity.
Qed.
End dns_more.

(** X3 at the repository's table: the A answer for a vendor name is the
    same with the upstream up or down. *)
Lemma ServeDNS_upstream_untouched_witness :
  dns.ServeDNS net.ParseIP Examples.upstreamUp Examples.server
    (Examples.request [Examples.question "rtupdate.wunderground.com." dns.TypeA])
  = dns.ServeDNS net.ParseIP Examples.upstreamDown Examples.server
      (Examples.request [Examples.question "rtupdate.wunderground.com." dns.TypeA]).
Proof.
  refine (ServeDNS_upstream_untouched net.ParseIP Examples.upstreamUp
            Examples.upstreamDown Examples.server
            (Examples.request [Examples.question "rtupdate.wunderground.com." dns.TypeA])
            (Examples.question "rtupdate.wunderground.com." dns.TypeA)
            eq_refl (or_intror (conj eq_refl _))).
  vm_compute. eauto.
Defined.

(** X4 at the repository's table: an MX query for an unlisted name gets
    one NXDOMAIN reply. *)
Lemma ServeDNS_blackhole_complete_witness :
  exists m,
    dns.ServeDNS net.ParseIP Examples.upstreamUp Examples.server
      (Examples.request [Examples.question "api.weather.com." 15]) = [m]
    /\ dns.Rcode m = dns.RcodeNameError /\ dns.Answer m = [].
Proof.
  destruct (ServeDNS_blackhole_complete net.ParseIP Examples.upstreamUp Examples.server
              (Examples.request [Examples.question "api.weather.com." 15])
              (Examples.question "api.weather.com." 15) eq_refl
              ltac:(apply (bool_decide_unpack _); vm_compute; exact I))
    as (m & Hm & _ & _ & _ & _ & Hnx).
  exists m. split; [exact Hm|]. apply Hnx. intros [HA _]. discriminate HA.
Defined.

(** ** The decoder and the endpoint beyond the claims *)

Section wu_more.
Variable Now : GoTime.Time.
Variable ParseInLocation : string -> string -> GoTime.Time * option error.
Variable ParseFloat : string -> Z -> float64 * option error.

Lemma Get_insert_ne (q : url.Values) (key key' : string) (vs : list string) :
  key <> key' -> url.Get (<[key := vs]> q) key' = url.Get q key'.
Proof. intros H. unfold url.Get. rewrite lookup_insert_ne by exact H. reflexivity. Qed.

Lemma Has_insert_ne (q : url.Values) (key key' : string) (vs : list string) :
  key <> key' -> url.Has (<[key := vs]> q) key' = url.Has q key'.
Proof. intros H. unfold url.Has. rewrite lookup_insert_ne by exact H. reflexivity. Qed.

Lemma Has_insert_eq (q : url.Values) (key : string) (vs : list string) :
  url.Has (<[key := vs]> q) key = true.
Proof. unfold url.Has. rewrite lookup_insert_eq. reflexivity. Qed.

Lemma with_stof_parsed (v : string) (f : float64) assign (dm : wu.DeviceMeasurement) :
  ParseFloat v 32 = (f, None) ->
  wu.with_stof ParseFloat v assign dm = assign (F32.of_f64 f) dm.
Proof. intros H. unfold wu.with_stof, wu.stof. rewrite H. reflexivity. Qed.

Lemma fromQuery_insert_frame (dm : wu.DeviceMeasurement) (q : url.Values)
  (key : string) (vs : list string) :
  key ∉ decoderKeys ->
  wu.fromQuery Now ParseInLocation ParseFloat dm (<[key := vs]> q)
  = wu.fromQuery Now ParseInLocation ParseFloat dm q.
Proof.
  intros H. unfold decoderKeys in H.
  repeat (apply not_elem_of_cons in H as [? H]).
  unfold wu.fromQuery.
  rewrite !Get_insert_ne by assumption. rewrite !Has_insert_ne by assumption.
  reflexivity.
Qed.

Lemma fromQuery_field_of_parsed (dm : wu.DeviceMeasurement) (q : url.Values)
  (p : wu.NumericParam) (f : float64) :
  snd (wu.fromQuery Now ParseInLocation ParseFloat dm q) = None ->
  ParseFloat (url.Get q (wu.param_name p)) 32 = (f, None) ->
  wu.param_field p (fst (wu.fromQuery Now ParseInLocation ParseFloat dm q))
  = param_convert p (F32.of_f64 f).
Proof.
  intros Hok Hp. revert Hok. unfold wu.fromQuery. cbv zeta.
  destruct (String.eqb (url.Get q "dateutc") "" || String.eqb (url.Get q "dateutc") "now").
  - intros _. cbn [fst].
    destruct p; cbn [wu.param_field wu.param_name param_convert] in *;
      rewrite (with_stof_parsed _ _ _ _ Hp);
      rewrite ?with_stof_frame by (intros; reflexivity); reflexivity.
  - destruct (ParseInLocation wu.dateLayout (url.Get q "dateutc")) as [t [e|]].
    + intros Hok. discriminate Hok.
    + intros _. cbn [fst].
      destruct p; cbn [wu.param_field wu.param_name param_convert] in *;
        rewrite (with_stof_parsed _ _ _ _ Hp);
        rewrite ?with_stof_frame by (intros; reflexivity); reflexivity.
Qed.

(** X5.  When decoding succeeds, every numeric parameter whose first value
    the float parser accepts fills its field with the parsed [float32]
    after the parameter's conversion: miles per hour to km/h for the wind
    speeds, Fahrenheit to Celsius for the temperatures and the dew point,
    inches to millimeters for the rain totals, inches of mercury to
    hectopascals for the pressure, and no conversion for the real-time
    frequency, the wind direction and the humidities. *)
Theorem fromQuery_parsed_field (dm : wu.DeviceMeasurement) (q : url.Values)
  (p : wu.NumericParam) (f : float64) :
  snd (wu.fromQuery Now ParseInLocation ParseFloat dm q) = None ->
  ParseFloat (url.Get q (wu.param_name p)) 32 = (f, None) ->
  wu.param_field p (fst (wu.fromQuery Now ParseInLocation ParseFloat dm q))
  = param_convert p (F32.of_f64 f).
Proof. apply fromQuery_field_of_parsed. Qed.

(** X6.  The submission time and the real-time flag.  When the first value
    of [dateutc] is empty or "now" (or the parameter is absent), decoding
    succeeds and the submission time is the current time; when it is
    anything else that the date-time parser accepts, decoding succeeds and
    the submission time is the parsed time.  Decoded into a zero record,
    the real-time flag is set exactly when [realtime] is present with the
    first value "1". *)
Theorem fromQuery_time_and_realtime (q : url.Values) :
  (url.Get q "dateutc" = "" \/ url.Get q "dateutc" = "now" ->
   exists dm, wu.fromQuery Now ParseInLocation ParseFloat wu.zeroDM q = (dm, None)
     /\ wu.DateUTC dm = Now)
  /\ (forall t, url.Get q "dateutc" <> "" -> url.Get q "dateutc" <> "now" ->
      ParseInLocation wu.dateLayout (url.Get q "dateutc") = (t, None) ->
      exists dm, wu.fromQuery Now ParseInLocation ParseFloat wu.zeroDM q = (dm, None)
        /\ wu.DateUTC dm = t)
  /\ (forall dm, wu.fromQuery Now ParseInLocation ParseFloat wu.zeroDM q = (dm, None) ->
      wu.RealTime dm
      = url.Has q "realtime" && String.eqb (url.Get q "realtime") "1").
Proof.
  split; [|split].
  - intros H. unfold wu.fromQuery. cbv zeta.
    assert (Hc : String.eqb (url.Get q "dateutc") ""
                 || String.eqb (url.Get q "dateutc") "now" = true).
    { destruct H as [H|H]; rewrite H; reflexivity. }
    rewrite Hc. eexists. split; [reflexivity|].
    rewrite !with_stof_frame by (intros; reflexivity).
    destruct (url.Has q "realtime"); reflexivity.
  - intros t H1 H2 Ht. unfold wu.fromQuery. cbv zeta.
    rewrite (proj2 (dateutc_now_iff _) (conj H1 H2)), Ht.
    eexists. split; [reflexivity|].
    rewrite !with_stof_frame by (intros; reflexivity).
    destruct (url.Has q "realtime"); reflexivity.
  - intros dm. unfold wu.fromQuery. cbv zeta.
    destruct (String.eqb (url.Get q "dateutc") "" || String.eqb (url.Get q "dateutc") "now").
    + intros H. injection H as <-.
      rewrite !with_stof_frame by (intros; reflexivity).
      destruct (url.Has q "realtime"); reflexivity.
    + destruct (ParseInLocation wu.dateLayout (url.Get q "dateutc")) as [t [e|]].
      * intros H. discriminate H.
      * intros H. injection H as <-.
        rewrite !with_stof_frame by (intros; reflexivity).
        destruct (url.Has q "realtime"); reflexivity.
Qed.

(** X7.  The decoder reads fourteen keys and nothing else: setting any
    other key of the query, such as the station's password, to any values
    changes neither the decoded record nor the error. *)
Theorem fromQuery_ignores_other_keys (dm : wu.DeviceMeasurement) (q : url.Values)
  (key : string) (vs : list string) :
  key ∉ decoderKeys ->
  wu.fromQuery Now ParseInLocation ParseFloat dm (<[key := vs]> q)
  = wu.fromQuery Now ParseInLocation ParseFloat dm q.
Proof. apply fromQuery_insert_frame. Qed.

Lemma ServeHTTP_cases (q : url.Values) :
  wu.ServeHTTP Now ParseInLocation ParseFloat q
  = wu.http_Error "Bad Request" wu.StatusBadRequest
  \/ exists dm,
       wu.fromQuery Now ParseInLocation ParseFloat wu.zeroDM q = (dm, None)
       /\ wu.ServeHTTP Now ParseInLocation ParseFloat q
          = [wu.GoHandleSubmission (url.Get q "ID") dm;
             wu.WriteHeader wu.StatusOK;
             wu.WriteString ("success" ++ LF)].
Proof.
  unfold wu.ServeHTTP.
  destruct (negb (String.eqb (url.Get q "action") "updateraww")
            || negb (url.Has q "ID") || negb (url.Has q "PASSWORD"));
    [left; reflexivity|].
  destruct (wu.fromQuery Now ParseInLocation ParseFloat wu.zeroDM q) as [dm [e|]];
    [left; reflexivity|].
  right. exists dm. split; reflexivity.
Qed.

(** X8.  Every request is answered with exactly one status line, and in one
    of two ways: 400 with the body "Bad Request" and a line feed and no
    callback, or 200 with the body "success" and a line feed and exactly
    one callback, started before the status line is written, with the first
    value of [ID] and the record [fromQuery] decoded.  So the callback runs
    if and only if the answer is 200. *)
Theorem ServeHTTP_two_outcomes (q : url.Values) :
  let es := wu.ServeHTTP Now ParseInLocation ParseFloat q in
  length (omap (fun e => match e with wu.WriteHeader c => Some c | _ => None end) es)
  = 1%nat
  /\ ((wu.status es = Some 400%Z
       /\ wu.body es = "Bad Request" ++ LF
       /\ wu.callbacks es = [])
      \/ (wu.status es = Some 200%Z
          /\ wu.body es = "success" ++ LF
          /\ exists dm,
               wu.fromQuery Now ParseInLocation ParseFloat wu.zeroDM q = (dm, None)
               /\ wu.callbacks es = [(url.Get q "ID", dm)]
               /\ head es = Some (wu.GoHandleSubmission (url.Get q "ID") dm))).
Proof.
  cbv zeta. destruct (ServeHTTP_cases q) as [H|(dm & Hdm & H)]; rewrite H.
  - split; [reflexivity|]. left. repeat split.
  - split; [reflexivity|]. right. split; [reflexivity|]. split; [reflexivity|].
    exists dm. repeat split. exact Hdm.
Qed.

(** X9.  The endpoint checks that a password is present and never looks at
    it: two requests that differ only in the values of [PASSWORD] get the
    same response and start the same callback. *)
Theorem ServeHTTP_ignores_password_value (q : url.Values) (vs1 vs2 : list string) :
  wu.ServeHTTP Now ParseInLocation ParseFloat (<["PASSWORD" := vs1]> q)
  = wu.ServeHTTP Now ParseInLocation ParseFloat (<["PASSWORD" := vs2]> q).
Proof.
  assert (Hk : "PASSWORD" ∉ decoderKeys).
  { unfold decoderKeys. intros H.
    repeat (apply elem_of_cons in H as [H|H]; [discriminate H|]).
    apply elem_of_nil in H. exact H. }
  unfold wu.ServeHTTP.
  rewrite !(fromQuery_insert_frame _ _ _ _ Hk).
  rewrite !Has_insert_eq.
  rewrite !(Get_insert_ne q "PASSWORD" "action") by discriminate.
  rewrite !(Get_insert_ne q "PASSWORD" "ID") by discriminate.
  rewrite !(Has_insert_ne q "PASSWORD" "ID") by discriminate.
  reflexivity.
Qed.
End wu_more.

(** X5 at the test query: the pressure field is 29.65 inHg in
    hectopascals. *)
Lemma fromQuery_parsed_field_witness :
  wu.Barometric (fst (Examples.decode Examples.testQuery))
  = wu.inHgToHPA (F32.of_ratio 2965 100).
Proof.
  etransitivity.
  - exact (fromQuery_parsed_field Examples.now GoTime.ParseInLocation strconv.ParseFloat
             wu.zeroDM Examples.testQuery wu.baromin
             (fst (strconv.ParseFloat "29.65" 32))
             ltac:(vm_compute; reflexivity) ltac:(vm_compute; reflexivity)).
  - vm_compute. reflexivity.
Defined.

(** X6 at a request without [dateutc], at the test query with a date-time,
    and at the test query itself, whose [realtime] is "1". *)
Lemma fromQuery_time_and_realtime_witness :
  (exists dm, Examples.decode ∅ = (dm, None) /\ wu.DateUTC dm = Examples.now)
  /\ (exists dm,
        Examples.decode (<["dateutc" := ["2025-01-23 23:09:18"]]> Examples.testQuery)
        = (dm, None)
        /\ wu.DateUTC dm = GoTime.mkTime 2025 1 23 23 9 18 0)
  /\ wu.RealTime (fst (Examples.decode Examples.testQuery)) = true.
Proof.
  split; [|split].
  - apply (proj1 (fromQuery_time_and_realtime Examples.now GoTime.ParseInLocation
                    strconv.ParseFloat ∅)).
    left. vm_compute. reflexivity.
  - apply (proj1 (proj2 (fromQuery_time_and_realtime Examples.now GoTime.ParseInLocation
                           strconv.ParseFloat
                           (<["dateutc" := ["2025-01-23 23:09:18"]]> Examples.testQuery)))).
    + vm_compute. discriminate.
    + vm_compute. discriminate.
    + vm_compute. reflexivity.
  - rewrite (proj2 (proj2 (fromQuery_time_and_realtime Examples.now
                             GoTime.ParseInLocation strconv.ParseFloat
                             Examples.testQuery))
               (fst (Examples.decode Examples.testQuery))
               ltac:(vm_compute; reflexivity)).
    vm_compute. reflexivity.
Defined.

(** X7 at the test query: another password decodes to the same record. *)
Lemma fromQuery_ignores_other_keys_witness :
  Examples.decode (<["PASSWORD" := ["hunter2"]]> Examples.testQuery)
  = Examples.decode Examples.testQuery.
Proof.
  apply (fromQuery_ignores_other_keys Examples.now GoTime.ParseInLocation
           strconv.ParseFloat wu.zeroDM Examples.testQuery "PASSWORD" ["hunter2"]).
  apply (bool_decide_unpack _). vm_compute. exact I.
Defined.

(** ** The metrics sink beyond the claims *)

(** X10.  A submission of station [s] touches the series of [s] only: when
    the sink returns, the series of every other station is, in each of the
    eleven vectors, what it was. *)
Theorem handleWUSubmission_other_stations (m m' : exporter.Metrics) (s s' : string)
  (dm : wu.DeviceMeasurement) (k : Series) :
  exporter.handleWUSubmission m s dm = inl m' ->
  s <> s' ->
  seriesOf k m' !! s' = seriesOf k m !! s'.
Proof.
  intros Hm Hne.
  destruct (handleWUSubmission_returns m m' s dm Hm) as [Hs Hrain].
  rewrite (handleWUSubmission_ok m s dm Hs Hrain) in Hm. injection Hm as <-.
  destruct k; cbn [seriesOf exporter.BarometricPressure exporter.DewPoint
                     exporter.Humidity exporter.IndoorHumidity
                     exporter.IndoorTemperature exporter.RainPastHour exporter.Rain
                     exporter.Temperature exporter.WindDirection
                     exporter.WindGustSpeed exporter.WindSpeed];
    rewrite ?lookup_insert_ne, ?lookup_delete_ne by exact Hne; reflexivity.
Qed.

(** X11.  The last submission of a station wins: when the sink has
    returned from one submission of a station, the outcome of the next
    submission of that station, the rainfall counter included, is what it
    would have been without the first. *)
Theorem handleWUSubmission_last_wins (m m1 : exporter.Metrics) (s : string)
  (dm1 dm2 : wu.DeviceMeasurement) :
  exporter.handleWUSubmission m s dm1 = inl m1 ->
  exporter.handleWUSubmission m1 s dm2 = exporter.handleWUSubmission m s dm2.
Proof.
  intros Hm1.
  destruct (handleWUSubmission_returns m m1 s dm1 Hm1) as [Hs H1].
  rewrite (handleWUSubmission_ok m s dm1 Hs H1) in Hm1. injection Hm1 as <-.
  destruct (F64.ltb (F64.of_f32 (wu.RainToday dm2)) F64.zero) eqn:H2.
  - rewrite !(handleWUSubmission_rain_panic _ s dm2 Hs H2). reflexivity.
  - rewrite !(handleWUSubmission_ok _ s dm2 Hs H2).
    cbn [exporter.BarometricPressure exporter.DewPoint exporter.Humidity
         exporter.IndoorHumidity exporter.IndoorTemperature exporter.RainPastHour
         exporter.Rain exporter.Temperature exporter.WindDirection
         exporter.WindGustSpeed exporter.WindSpeed].
    rewrite !insert_insert_eq, delete_insert_eq, delete_delete_eq. reflexivity.
Qed.

(** X12.  Two submissions of different stations that the sink returns from
    commute: run one after the other, in either order, they return and
    leave the same metrics. *)
Theorem handleWUSubmission_commute (m m1 m2 : exporter.Metrics) (s1 s2 : string)
  (dm1 dm2 : wu.DeviceMeasurement) :
  s1 <> s2 ->
  exporter.handleWUSubmission m s1 dm1 = inl m1 ->
  exporter.handleWUSubmission m s2 dm2 = inl m2 ->
  exists m12,
    exporter.handleWUSubmission m1 s2 dm2 = inl m12
    /\ exporter.handleWUSubmission m2 s1 dm1 = inl m12.
Proof.
  intros Hne Hm1 Hm2.
  destruct (handleWUSubmission_returns m m1 s1 dm1 Hm1) as [Hs1 H1].
  destruct (handleWUSubmission_returns m m2 s2 dm2 Hm2) as [Hs2 H2].
  rewrite (handleWUSubmission_ok m s1 dm1 Hs1 H1) in Hm1. injection Hm1 as <-.
  rewrite (handleWUSubmission_ok m s2 dm2 Hs2 H2) in Hm2. injection Hm2 as <-.
  rewrite (handleWUSubmission_ok _ s2 dm2 Hs2 H2), (handleWUSubmission_ok _ s1 dm1 Hs1 H1).
  eexists. split; [reflexivity|].
  cbn [exporter.BarometricPressure exporter.DewPoint exporter.Humidity
       exporter.IndoorHumidity exporter.IndoorTemperature exporter.RainPastHour
       exporter.Rain exporter.Temperature exporter.WindDirection
       exporter.WindGustSpeed exporter.WindSpeed].
  assert (Hne' : s2 <> s1) by congruence.
  rewrite (delete_insert_ne _ s2 s1) by exact Hne'.
  rewrite (delete_insert_ne _ s1 s2) by exact Hne.
  rewrite (delete_delete (exporter.Rain m) s2 s1).
  f_equal. f_equal; apply insert_insert_ne; exact Hne.
Qed.

(** X13.  The sink panics in exactly two cases.  When the station ID is not
    valid UTF-8, the first [With] panics on the label value, before any
    series is written.  When the station ID is valid and the rain total is
    below zero, the counter's [Add] panics: a counter cannot decrease.  In
    every other case the sink returns. *)
Theorem handleWUSubmission_panic_iff (m : exporter.Metrics) (s : string)
  (dm : wu.DeviceMeasurement) (p : exporter.panicValue) :
  exporter.handleWUSubmission m s dm = inr p
  <-> (utf8.ValidString s = false /\ p = exporter.LabelValueNotUTF8 s)
      \/ (utf8.ValidString s = true
          /\ F64.ltb (F64.of_f32 (wu.RainToday dm)) F64.zero = true
          /\ p = exporter.CounterCannotDecrease).
Proof.
  destruct (utf8.ValidString s) eqn:Hs.
  - destruct (F64.ltb (F64.of_f32 (wu.RainToday dm)) F64.zero) eqn:Hrain.
    + rewrite (handleWUSubmission_rain_panic m s dm Hs Hrain). split.
      * intros H. injection H as <-. right. repeat split.
      * intros [[H _]|(_ & _ & ->)]; [discriminate H|reflexivity].
    + rewrite (handleWUSubmission_ok m s dm Hs Hrain). split.
      * intros H. discriminate H.
      * intros [[H _]|(_ & H & _)]; discriminate H.
  - rewrite (handleWUSubmission_label_panic m s dm Hs). split.
    + intros H. injection H as <-. left. split; reflexivity.
    + intros [[_ ->]|(H & _)]; [reflexivity|discriminate H].
Qed.

(** X10 at two stations: a submission of KB leaves the counter of KA as the
    submission of KA set it. *)
Lemma handleWUSubmission_other_stations_witness :
  exists m1 m2,
    exporter.handleWUSubmission exporter.newMetrics "KA"
      (fst (Examples.decode (Examples.rainQuery "1.0"))) = inl m1
    /\ exporter.handleWUSubmission m1 "KB"
         (fst (Examples.decode (Examples.rainQuery "2.0"))) = inl m2
    /\ seriesOf sRain m2 !! "KA" = seriesOf sRain m1 !! "KA".
Proof.
  destruct (exporter.handleWUSubmission exporter.newMetrics "KA"
              (fst (Examples.decode (Examples.rainQuery "1.0")))) as [m1|p] eqn:H1;
    [|vm_compute in H1; discriminate H1].
  destruct (exporter.handleWUSubmission m1 "KB"
              (fst (Examples.decode (Examples.rainQuery "2.0")))) as [m2|p] eqn:H2.
  - exists m1, m2. split; [reflexivity|]. split; [exact H2|].
    apply (handleWUSubmission_other_stations m1 m2 "KB" "KA" _ sRain H2).
    discriminate.
  - exfalso. vm_compute in H1. injection H1 as <-. vm_compute in H2. discriminate H2.
Defined.

(** X11 at rain totals of 2.0 and then 1.0 inch. *)
Lemma handleWUSubmission_last_wins_witness :
  exists m1,
    exporter.handleWUSubmission exporter.newMetrics "test"
      (fst (Examples.decode (Examples.rainQuery "2.0"))) = inl m1
    /\ exporter.handleWUSubmission m1 "test"
         (fst (Examples.decode (Examples.rainQuery "1.0")))
       = exporter.handleWUSubmission exporter.newMetrics "test"
           (fst (Examples.decode (Examples.rainQuery "1.0"))).
Proof.
  destruct (exporter.handleWUSubmission exporter.newMetrics "test"
              (fst (Examples.decode (Examples.rainQuery "2.0")))) as [m1|p] eqn:H1;
    [|vm_compute in H1; discriminate H1].
  exists m1. split; [reflexivity|].
  apply (handleWUSubmission_last_wins exporter.newMetrics m1 "test" _ _ H1).
Defined.

(** X12 at two stations. *)
Lemma handleWUSubmission_commute_witness :
  exists m1 m2 m12,
    exporter.handleWUSubmission exporter.newMetrics "KA"
      (fst (Examples.decode (Examples.rainQuery "2.0"))) = inl m1
    /\ exporter.handleWUSubmission exporter.newMetrics "KB"
         (fst (Examples.decode (Examples.rainQuery "1.0"))) = inl m2
    /\ exporter.handleWUSubmission m1 "KB"
         (fst (Examples.decode (Examples.rainQuery "1.0"))) = inl m12
    /\ exporter.handleWUSubmission m2 "KA"
         (fst (Examples.decode (Examples.rainQuery "2.0"))) = inl m12.
Proof.
  destruct (exporter.handleWUSubmission exporter.newMetrics "KA"
              (fst (Examples.decode (Examples.rainQuery "2.0")))) as [m1|p] eqn:H1;
    [|vm_compute in H1; discriminate H1].
  destruct (exporter.handleWUSubmission exporter.newMetrics "KB"
              (fst (Examples.decode (Examples.rainQuery "1.0")))) as [m2|p] eqn:H2;
    [|vm_compute in H2; discriminate H2].
  destruct (handleWUSubmission_commute exporter.newMetrics m1 m2 "KA" "KB" _ _
              ltac:(discriminate) H1 H2) as (m12 & Ha & Hb).
  exists m1, m2, m12. repeat split; assumption.
Defined.

(** X13 at the test query with a rain total of -1 inch, and with the
    station ID 0xFF. *)
Lemma handleWUSubmission_panic_iff_witness :
  exporter.handleWUSubmission exporter.newMetrics "test"
    (fst (Examples.decode (Examples.rainQuery "-1")))
  = inr exporter.CounterCannotDecrease
  /\ exporter.handleWUSubmission exporter.newMetrics Examples.byteFF
       (fst (Examples.decode Examples.testQuery))
     = inr (exporter.LabelValueNotUTF8 Examples.byteFF).
Proof.
  split.
  - apply (proj2 (handleWUSubmission_panic_iff exporter.newMetrics "test" _ _)).
    right. repeat split; vm_compute; reflexivity.
  - apply (proj2 (handleWUSubmission_panic_iff exporter.newMetrics Examples.byteFF _ _)).
    left. split; [vm_compute|]; reflexivity.
Defined.

(** ** The unit conversions beyond the claims *)

Lemma binary_round_aux_opp (prec emax : Z) (s : bool) (m e : Z) (l : location) :
  SFopp (binary_round_aux prec emax s m e l)
  = binary_round_aux prec emax (negb s) m e l.
Proof.
  unfold binary_round_aux.
  destruct (shr_fexp prec emax m e l) as [mrs e'].
  destruct (shr_fexp prec emax
              (round_nearest_even (shr_m mrs) (loc_of_shr_record mrs)) e' loc_Exact)
    as [mrs' e''].
  destruct (shr_m mrs') as [|p|p]; [reflexivity| |reflexivity].
  destruct (e'' <=? emax - prec)%Z; reflexivity.
Qed.

Lemma SFmul_opp_l (prec emax : Z) (x : spec_float) (m : positive) (e : Z) :
  SFmul prec emax (SFopp x) (S754_finite false m e)
  = SFopp (SFmul prec emax x (S754_finite false m e)).
Proof.
  destruct x as [[]|[]| |s mx ex]; try reflexivity.
  change (binary_round_aux prec emax (xorb (negb s) false) (Zpos (mx * m)) (ex + e)
            loc_Exact
          = SFopp (binary_round_aux prec emax (xorb s false) (Zpos (mx * m)) (ex + e)
                     loc_Exact)).
  rewrite binary_round_aux_opp. destruct s; reflexivity.
Qed.

Lemma SFmul_special (prec emax : Z) (m : positive) (e : Z) :
  (forall s, SFmul prec emax (S754_zero s) (S754_finite false m e) = S754_zero s)
  /\ (forall s, SFmul prec emax (S754_infinity s) (S754_finite false m e)
                = S754_infinity s)
  /\ SFmul prec emax S754_nan (S754_finite false m e) = S754_nan.
Proof. repeat split; intros []; reflexivity. Qed.

(** X14.  The three conversions by a factor (inches to millimeters, miles
    per hour to km/h, inches of mercury to hectopascals) keep the sign of
    every reading: the negated reading converts to the negated value, a
    zero of either sign to the same zero, an infinity to the same infinity,
    and NaN to NaN.  The Fahrenheit conversion maps NaN to NaN and each
    infinity to itself. *)
Theorem conversions_sign_and_specials :
  (forall x, wu.inToMM (SFopp x) = SFopp (wu.inToMM x))
  /\ (forall x, wu.mphToKPH (SFopp x) = SFopp (wu.mphToKPH x))
  /\ (forall x, wu.inHgToHPA (SFopp x) = SFopp (wu.inHgToHPA x))
  /\ (forall s, wu.inToMM (S754_zero s) = S754_zero s
                /\ wu.mphToKPH (S754_zero s) = S754_zero s
                /\ wu.inHgToHPA (S754_zero s) = S754_zero s)
  /\ (forall s, wu.inToMM (S754_infinity s) = S754_infinity s
                /\ wu.mphToKPH (S754_infinity s) = S754_infinity s
                /\ wu.inHgToHPA (S754_infinity s) = S754_infinity s
                /\ wu.ftoc (S754_infinity s) = S754_infinity s)
  /\ wu.inToMM S754_nan = S754_nan /\ wu.mphToKPH S754_nan = S754_nan
  /\ wu.inHgToHPA S754_nan = S754_nan /\ wu.ftoc S754_nan = S754_nan.
Proof.
  unfold wu.inToMM, wu.mphToKPH, wu.inHgToHPA, F32.mul.
  assert (H1 : exists m e, F32.of_ratio 254 10 = S754_finite false m e)
    by (vm_compute; eauto).
  assert (H2 : exists m e, F32.of_ratio 1609344 1000000 = S754_finite false m e)
    by (vm_compute; eauto).
  assert (H3 : exists m e, F32.of_ratio 338639 10000 = S754_finite false m e)
    by (vm_compute; eauto).
  destruct H1 as (m1 & e1 & ->), H2 as (m2 & e2 & ->), H3 as (m3 & e3 & ->).
  split; [intros x; apply SFmul_opp_l|].
  split; [intros x; apply SFmul_opp_l|].
  split; [intros x; apply SFmul_opp_l|].
  split; [intros s; destruct s; repeat split|].
  split; [intros s; destruct s; repeat split; vm_compute; reflexivity|].
  repeat split.
Qed.

(** ** The orchestrator beyond the claims *)

Section exporter_more.
Variable outboundIP : string + error.
Variable Wait : list exporter.event -> option error.
Variable ParseIP : string -> net.IP.
Variable Exchange : dns.Msg -> string -> dns.Msg + error.

Lemma set_running_restore (e : exporter.Exporter) :
  exporter.running e = false ->
  exporter.set_running false (exporter.set_running true e) = e.
Proof. destruct e. cbn. intros ->. reflexivity. Qed.

Lemma NewExporter_inv (c : exporter.Config) (e : exporter.Exporter) :
  exporter.NewExporter outboundIP c = inl e ->
  exists ip,
    e = exporter.mkExporter ip (exporter.UpstreamResolver c)
          (exporter.DNSListenAddress c)
          (if String.eqb (exporter.WUListenAddress c) "" then ":80"
           else exporter.WUListenAddress c)
          (if String.eqb (exporter.WUTLSListenAddress c) "" then ":443"
           else exporter.WUTLSListenAddress c)
          false exporter.newMetrics None None
    /\ (exporter.ExporterIP c <> "" -> ip = exporter.ExporterIP c)
    /\ (exporter.ExporterIP c = "" -> outboundIP = inl ip).
Proof.
  unfold exporter.NewExporter. intros H.
  destruct (String.eqb (exporter.ExporterIP c) "") eqn:E.
  - apply String.eqb_eq in E. destruct outboundIP as [ip|err]; [|discriminate H].
    injection H as <-. exists ip. split; [reflexivity|].
    split; [intros Hn; contradiction|reflexivity].
  - apply String.eqb_neq in E. injection H as <-. exists (exporter.ExporterIP c).
    split; [reflexivity|]. split; [reflexivity|intros Hn; contradiction].
Qed.

(** The start routine once entered, when the issuer succeeds. *)
Lemma serve_issued (cert : exporter.Certificate) (e : exporter.Exporter) :
  exporter.serve (inl cert) Wait e
  = let tls := exporter.nonempty (exporter.wuTLSListenAddress e) in
    let srv := exporter.mkHTTPServer 5
                 (if tls then Some (exporter.mkTLSConfig [cert] exporter.VersionTLS10)
                  else None) in
    let dnsSrv := dns.NewServer
                    (dns.mkConfig (exporter.upstreamResolver e)
                       (<["rtupdate.wunderground.com." := exporter.exporterIP e]>
                          (<["weatherstation.wunderground.com."
                             := exporter.exporterIP e]> ∅))
                       exporter.forwardDomains) in
    let tasks :=
      ((if exporter.nonempty (exporter.dnsListenAddress e)
        then [exporter.GoDNS (exporter.dnsListenAddress e) dnsSrv] else [])
       ++ [exporter.GoServe (exporter.wuListenAddress e) srv]
       ++ (if exporter.nonempty (exporter.wuListenAddress e)
           then [exporter.GoServeTLS (exporter.wuTLSListenAddress e) srv]
           else []))%list in
    (exporter.set_dnsServer dnsSrv (exporter.set_httpServer srv e),
     ((if tls then [exporter.GenTLSCertificate] else []) ++ tasks)%list,
     Wait tasks).
Proof.
  unfold exporter.serve.
  destruct (exporter.nonempty (exporter.wuTLSListenAddress e)); reflexivity.
Qed.

Lemma ListenAndServe_entered (issuer : exporter.Certificate + error)
  (e : exporter.Exporter) :
  exporter.running e = false ->
  exporter.ListenAndServe issuer Wait e
  = let '(e2, evs, err) := exporter.serve issuer Wait (exporter.set_running true e) in
    (exporter.set_running false e2, evs, err).
Proof.
  intros Hr. unfold exporter.ListenAndServe, exporter.CompareAndSwap.
  rewrite Hr. cbn [Bool.eqb negb].
  pose proof (serve_running issuer Wait (exporter.set_running true e)) as Hs.
  destruct (exporter.serve issuer Wait (exporter.set_running true e)) as [[e2 evs] err].
  cbn in Hs. rewrite Hs. reflexivity.
Qed.

(** X15.  Started on an exporter that [NewExporter] returned, with the
    issuer succeeding, the routine issues the certificate first, starts the
    DNS listener exactly when a DNS address was configured, and always
    starts both the plaintext and the TLS-terminated listener, on the
    configured addresses or on ":80" and ":443" where the configuration
    left them empty, the TLS-terminated one with the issued certificate and
    TLS 1.0 as the lowest version. *)
Theorem NewExporter_then_ListenAndServe (cert : exporter.Certificate)
  (c : exporter.Config) (e : exporter.Exporter) :
  exporter.NewExporter outboundIP c = inl e ->
  exists dnsSrv,
    let http := exporter.mkHTTPServer 5
                  (Some (exporter.mkTLSConfig [cert] exporter.VersionTLS10)) in
    let plain := if String.eqb (exporter.WUListenAddress c) "" then ":80"
                 else exporter.WUListenAddress c in
    let tls := if String.eqb (exporter.WUTLSListenAddress c) "" then ":443"
               else exporter.WUTLSListenAddress c in
    let evs := snd (fst (exporter.ListenAndServe (inl cert) Wait e)) in
    evs = (exporter.GenTLSCertificate
           :: (if exporter.nonempty (exporter.DNSListenAddress c)
               then [exporter.GoDNS (exporter.DNSListenAddress c) dnsSrv] else [])
           ++ [exporter.GoServe plain http; exporter.GoServeTLS tls http])%list
    /\ exporter.certificateBeforeTLS false evs = true.
Proof.
  intros Hnew.
  destruct (NewExporter_listen_addresses outboundIP c e Hnew) as (Hp & Ht & Hr).
  destruct (NewExporter_inv c e Hnew) as (ip & -> & _ & _).
  rewrite (ListenAndServe_entered _ _ Hr), serve_issued.
  cbn [exporter.wuListenAddress exporter.wuTLSListenAddress exporter.dnsListenAddress
       exporter.set_running exporter.upstreamResolver exporter.exporterIP] in *.
  rewrite Hp, Ht. cbv zeta. cbn [fst snd].
  eexists. split; [reflexivity|].
  destruct (exporter.nonempty (exporter.DNSListenAddress c)); reflexivity.
Qed.

(** X16.  When the TLS address is set and the certificate issuer fails, the
    routine returns the issuer's error behind "generate self signed
    certificate: ", starts no listener, builds no server, and leaves the
    exporter as it found it, not running. *)
Theorem ListenAndServe_issuer_failure (e : exporter.Exporter) (err : error) :
  exporter.running e = false ->
  exporter.nonempty (exporter.wuTLSListenAddress e) = true ->
  exporter.ListenAndServe (inr err) Wait e
  = (e, [exporter.GenTLSCertificate],
     Some ("generate self signed certificate: " ++ err)).
Proof.
  intros Hr Ht. rewrite (ListenAndServe_entered _ _ Hr).
  unfold exporter.serve.
  cbn [exporter.wuTLSListenAddress exporter.set_running]. rewrite Ht.
  rewrite (set_running_restore e Hr). reflexivity.
Qed.

Lemma ListenAndServe_dnsServer (cert : exporter.Certificate) (e : exporter.Exporter) :
  exporter.running e = false ->
  exporter.dnsServer (fst (fst (exporter.ListenAndServe (inl cert) Wait e)))
  = Some (dns.NewServer
            (dns.mkConfig (exporter.upstreamResolver e)
               (<["rtupdate.wunderground.com." := exporter.exporterIP e]>
                  (<["weatherstation.wunderground.com." := exporter.exporterIP e]> ∅))
               exporter.forwardDomains)).
Proof.
  intros Hr. rewrite (ListenAndServe_entered _ _ Hr), serve_issued. reflexivity.
Qed.

Lemma vendor_name_iff (name : string) :
  (exists d, d ∈ exporter.wuDomains /\ name = d ++ ".")
  <-> name = "weatherstation.wunderground.com." \/ name = "rtupdate.wunderground.com.".
Proof.
  unfold exporter.wuDomains. split.
  - intros (d & Hd & ->).
    apply elem_of_cons in Hd as [->|Hd]; [left; reflexivity|].
    apply elem_of_cons in Hd as [->|Hd]; [right; reflexivity|].
    apply elem_of_nil in Hd. contradiction.
  - intros [->| ->].
    + exists "weatherstation.wunderground.com". split; [|reflexivity].
      apply elem_of_cons. left. reflexivity.
    + exists "rtupdate.wunderground.com". split; [|reflexivity].
      apply elem_of_cons. right. apply elem_of_cons. left. reflexivity.
Qed.

Lemma vendor_name_not_forwarded (name : string) :
  name = "weatherstation.wunderground.com." \/ name = "rtupdate.wunderground.com." ->
  name ∉ foldl (fun fd domain => {[domain]} ∪ fd) (∅ : gset string)
           exporter.forwardDomains.
Proof.
  intros [->| ->]; apply (bool_decide_unpack _); vm_compute; exact I.
Qed.

(** X17.  When the routine returns after the issuer succeeded, the exporter
    holds the DNS server it built, and the DNS listener, if a DNS address
    is set, was started with that server.  Its table maps exactly the two
    vendor submission domains, each with a trailing dot, to the exporter's
    address; its forward set has exactly the members of the forward list;
    its upstream is the exporter's resolver; and no name of the table is in
    the forward set. *)
Theorem ListenAndServe_dns_table (cert : exporter.Certificate) (e : exporter.Exporter) :
  exporter.running e = false ->
  exists srv,
    exporter.dnsServer (fst (fst (exporter.ListenAndServe (inl cert) Wait e))) = Some srv
    /\ (exporter.nonempty (exporter.dnsListenAddress e) = true ->
        exporter.GoDNS (exporter.dnsListenAddress e) srv
        ∈ snd (fst (exporter.ListenAndServe (inl cert) Wait e)))
    /\ dns.upstreamResolver srv = exporter.upstreamResolver e
    /\ (forall name ip,
          dns.records srv !! name = Some ip
          <-> ip = exporter.exporterIP e
              /\ exists d, d ∈ exporter.wuDomains /\ name = d ++ ".")
    /\ (forall name, name ∈ dns.forwardDomains srv <-> name ∈ exporter.forwardDomains)
    /\ (forall name, is_Some (dns.records srv !! name) ->
          name ∉ dns.forwardDomains srv).
Proof.
  intros Hr. eexists. split; [apply (ListenAndServe_dnsServer cert e Hr)|].
  assert (Hrec : forall name ip,
            (<["rtupdate.wunderground.com." := exporter.exporterIP e]>
               (<["weatherstation.wunderground.com." := exporter.exporterIP e]>
                  (∅ : gmap string string))) !! name = Some ip
            <-> ip = exporter.exporterIP e
                /\ (name = "weatherstation.wunderground.com."
                    \/ name = "rtupdate.wunderground.com.")).
  { intros name ip. rewrite !lookup_insert_Some, lookup_empty. split.
    - intros [[<- <-]|[_ [[<- <-]|[_ H]]]]; [auto|auto|discriminate H].
    - intros [-> [->| ->]]; [right; split; [discriminate|left; auto]|left; auto]. }
  split.
  { intros Hd. rewrite (ListenAndServe_entered _ _ Hr), serve_issued.
    cbv zeta. cbn [fst snd exporter.dnsListenAddress exporter.set_running
                   exporter.upstreamResolver exporter.exporterIP].
    rewrite Hd. apply elem_of_app. right. apply elem_of_app. left.
    apply elem_of_cons. left. reflexivity. }
  split; [reflexivity|]. split; [|split].
  - intros name ip. cbn [dns.records dns.NewServer dns.Records].
    rewrite Hrec, vendor_name_iff. reflexivity.
  - intros name. cbn [dns.forwardDomains dns.NewServer dns.ForwardDomains].
    rewrite foldl_forward_set. split.
    + intros [H|H]; [exfalso; exact (not_elem_of_empty _ H)|exact H].
    + intros H. right. exact H.
  - intros name [ip Hip]. cbn [dns.records dns.NewServer dns.Records] in Hip.
    apply Hrec in Hip as [_ Hname].
    cbn [dns.forwardDomains dns.NewServer dns.ForwardDomains].
    apply vendor_name_not_forwarded, Hname.
Qed.

(** X18.  The DNS server the routine builds answers the vendor submission
    domains itself: an A query for one of them gets the single A record
    with the exporter's address, a query of any other type gets NXDOMAIN,
    and neither is ever relayed to the upstream resolver. *)
Theorem ListenAndServe_serves_vendor_domains (cert : exporter.Certificate)
  (e : exporter.Exporter) (srv : dns.Server) (d : string)
  (r : dns.Msg) (q : dns.Question) :
  exporter.running e = false ->
  exporter.dnsServer (fst (fst (exporter.ListenAndServe (inl cert) Wait e))) = Some srv ->
  d ∈ exporter.wuDomains ->
  dns.Questions r = [q] ->
  dns.Name q = d ++ "." ->
  (dns.Qtype q = dns.TypeA ->
   dns.ServeDNS ParseIP Exchange srv r
   = [dns.append_Answer
        (dns.RR_A (dns.mkHeader (dns.Name q) dns.TypeA dns.ClassINET 3600)
           (ParseIP (exporter.exporterIP e)))
        (dns.SetReply dns.newMsg r)])
  /\ (dns.Qtype q <> dns.TypeA ->
      dns.ServeDNS ParseIP Exchange srv r
      = [dns.SetRcode dns.newMsg r dns.RcodeNameError]).
Proof.
  intros Hr Hsrv Hd Hq Hname.
  rewrite (ListenAndServe_dnsServer cert e Hr) in Hsrv. injection Hsrv as <-.
  assert (Hv : dns.Name q = "weatherstation.wunderground.com."
               \/ dns.Name q = "rtupdate.wunderground.com.").
  { apply vendor_name_iff. exists d. split; assumption. }
  rewrite (ServeDNS_single ParseIP Exchange _ r q Hq). split.
  - intros HA. rewrite HA, Z.eqb_refl. cbn [dns.records dns.NewServer dns.Records].
    destruct Hv as [Hv|Hv]; rewrite Hv.
    + rewrite lookup_insert_ne by discriminate. rewrite lookup_insert_eq. reflexivity.
    + rewrite lookup_insert_eq. reflexivity.
  - intros HA. apply Z.eqb_neq in HA. rewrite HA.
    apply forwardOrBlackhole_blackhole.
    cbn [dns.forwardDomains dns.NewServer dns.ForwardDomains].
    apply vendor_name_not_forwarded, Hv.
Qed.

(** X19.  The routine can be started again after it has returned, and the
    earlier run leaves no trace in the later one.  On an exporter that is
    not running, the first call returns with the flag unset, and a second
    call, with its own issuer outcome and its own listener outcomes, makes
    the issuer call, starts the listener tasks and returns the error that a
    call on the exporter as it was before the first would; when the second
    issuer call succeeds, the exporter afterwards is the same too. *)
Theorem ListenAndServe_again (issuer1 issuer2 : exporter.Certificate + error)
  (Wait' : list exporter.event -> option error) (e : exporter.Exporter) :
  exporter.running e = false ->
  let first := exporter.ListenAndServe issuer1 Wait e in
  let second := exporter.ListenAndServe issuer2 Wait' (fst (fst first)) in
  let fresh := exporter.ListenAndServe issuer2 Wait' e in
  exporter.running (fst (fst first)) = false
  /\ snd (fst second) = snd (fst fresh)
  /\ snd second = snd fresh
  /\ (forall cert, issuer2 = inl cert -> fst (fst second) = fst (fst fresh)).
Proof.
  intros Hr. destruct e as [ip up dnsA wuA tlsA run met ds hs].
  cbn in Hr. subst run. cbv zeta.
  unfold exporter.ListenAndServe, exporter.CompareAndSwap, exporter.serve.
  cbn [exporter.running Bool.eqb negb exporter.set_running
       exporter.wuTLSListenAddress].
  destruct (exporter.nonempty tlsA) eqn:Ht;
    [destruct issuer1 as [cert1|err1]|];
    cbn -[exporter.nonempty dns.NewServer foldl];
    rewrite ?Ht; try destruct issuer2 as [cert2|err2];
    cbn -[exporter.nonempty dns.NewServer foldl];
    (split; [reflexivity|]; split; [reflexivity|]; split; [reflexivity|]);
    intros cert Hc; first [discriminate Hc | reflexivity].
Qed.



End exporter_more.

(** X15 at a configuration with only the DNS address set. *)
Lemma NewExporter_then_ListenAndServe_witness :
  exists e, exporter.NewExporter exampleProbe exampleConfig = inl e
    /\ exists dnsSrv,
         snd (fst (Examples.listenAndServe e))
         = [exporter.GenTLSCertificate;
            exporter.GoDNS ":53" dnsSrv;
            exporter.GoServe ":80"
              (exporter.mkHTTPServer 5
                 (Some (exporter.mkTLSConfig [Examples.certificate]
                          exporter.VersionTLS10)));
            exporter.GoServeTLS ":443"
              (exporter.mkHTTPServer 5
                 (Some (exporter.mkTLSConfig [Examples.certificate]
                          exporter.VersionTLS10)))].
Proof.
  eexists. split; [reflexivity|].
  destruct (NewExporter_then_ListenAndServe exampleProbe Examples.shutdown
              Examples.certificate exampleConfig _ eq_refl) as (dnsSrv & Hevs & _).
  exists dnsSrv. exact Hevs.
Defined.

(** X16 at an exporter with both addresses set and an issuer out of
    entropy. *)
Lemma ListenAndServe_issuer_failure_witness :
  exporter.ListenAndServe (inr "entropy source failed") Examples.shutdown
    (Examples.exporterAt ":80" ":443")
  = (Examples.exporterAt ":80" ":443", [exporter.GenTLSCertificate],
     Some "generate self signed certificate: entropy source failed").
Proof.
  apply (ListenAndServe_issuer_failure Examples.shutdown
           (Examples.exporterAt ":80" ":443") "entropy source failed");
    reflexivity.
Defined.

(** X17 at an exporter at 192.168.1.10: the table answers for the RapidFire
    domain and for no time server. *)
Lemma ListenAndServe_dns_table_witness :
  exists srv,
    exporter.dnsServer (fst (fst (Examples.listenAndServe
                                    (Examples.exporterAt ":80" ":443")))) = Some srv
    /\ dns.records srv !! "rtupdate.wunderground.com." = Some "192.168.1.10"
    /\ dns.records srv !! "time.nist.gov." = None.
Proof.
  destruct (ListenAndServe_dns_table Examples.shutdown Examples.certificate
              (Examples.exporterAt ":80" ":443") eq_refl)
    as (srv & Hsrv & _ & _ & Hrec & _ & _).
  exists srv. split; [exact Hsrv|]. split.
  - apply Hrec. split; [reflexivity|].
    exists "rtupdate.wunderground.com". split; [|reflexivity].
    apply (bool_decide_unpack _). vm_compute. exact I.
  - destruct (dns.records srv !! "time.nist.gov.") as [ip|] eqn:E; [|reflexivity].
    apply Hrec in E as (_ & d & Hd & Hname). exfalso.
    unfold exporter.wuDomains in Hd.
    apply elem_of_cons in Hd as [->|Hd]; [discriminate Hname|].
    apply elem_of_cons in Hd as [->|Hd]; [discriminate Hname|].
    apply elem_of_nil in Hd. exact Hd.
Defined.

(** X18 at an exporter at 192.168.1.10: an A query and an AAAA query for
    the RapidFire domain, with the upstream up. *)
Lemma ListenAndServe_serves_vendor_domains_witness :
  dns.ServeDNS net.ParseIP Examples.upstreamUp Examples.server
    (Examples.request [Examples.question "rtupdate.wunderground.com." dns.TypeA])
  = [dns.append_Answer
       (dns.RR_A (dns.mkHeader "rtupdate.wunderground.com." dns.TypeA dns.ClassINET 3600)
          (net.ParseIP "192.168.1.10"))
       (dns.SetReply dns.newMsg
          (Examples.request [Examples.question "rtupdate.wunderground.com." dns.TypeA]))]
  /\ dns.ServeDNS net.ParseIP Examples.upstreamUp Examples.server
       (Examples.request [Examples.question "rtupdate.wunderground.com." dns.TypeAAAA])
     = [dns.SetRcode dns.newMsg
          (Examples.request
             [Examples.question "rtupdate.wunderground.com." dns.TypeAAAA])
          dns.RcodeNameError].
Proof.
  split.
  - apply (proj1 (ListenAndServe_serves_vendor_domains Examples.shutdown net.ParseIP
                    Examples.upstreamUp Examples.certificate
                    (Examples.exporterAt ":80" ":443") Examples.server
                    "rtupdate.wunderground.com"
                    (Examples.request
                       [Examples.question "rtupdate.wunderground.com." dns.TypeA])
                    (Examples.question "rtupdate.wunderground.com." dns.TypeA)
                    eq_refl ltac:(vm_compute; reflexivity)
                    ltac:(apply (bool_decide_unpack _); vm_compute; exact I)
                    eq_refl eq_refl)).
    reflexivity.
  - apply (proj2 (ListenAndServe_serves_vendor_domains Examples.shutdown net.ParseIP
                    Examples.upstreamUp Examples.certificate
                    (Examples.exporterAt ":80" ":443") Examples.server
                    "rtupdate.wunderground.com"
                    (Examples.request
                       [Examples.question "rtupdate.wunderground.com." dns.TypeAAAA])
                    (Examples.question "rtupdate.wunderground.com." dns.TypeAAAA)
                    eq_refl ltac:(vm_compute; reflexivity)
                    ltac:(apply (bool_decide_unpack _); vm_compute; exact I)
                    eq_refl eq_refl)).
    discriminate.
Defined.

(** X19 at an exporter with both addresses set, a first run with a
    certificate and a second with another. *)
Lemma ListenAndServe_again_witness :
  snd (fst (exporter.ListenAndServe (inl secondCertificate) Examples.shutdown
              (fst (fst (Examples.listenAndServe (Examples.exporterAt ":80" ":443"))))))
  = snd (fst (exporter.ListenAndServe (inl secondCertificate) Examples.shutdown
                (Examples.exporterAt ":80" ":443"))).
Proof.
  apply (proj1 (proj2 (ListenAndServe_again Examples.shutdown Examples.issuer
                         (inl secondCertificate) Examples.shutdown
                         (Examples.exporterAt ":80" ":443") eq_refl))).
Defined.


(** ** From the request to the metrics *)

Section pipeline.
Variable outboundIP : string + error.
Variable Now : GoTime.Time.
Variable ParseInLocation : string -> string -> GoTime.Time * option error.
Variable ParseFloat : string -> Z -> float64 * option error.

Lemma Get_insert_first (q : url.Values) (key : string) (v : string)
  (vs : list string) (key' : string) :
  url.Get (<[key := v :: vs]> q) key' = url.Get (<[key := [v]]> q) key'.
Proof.
  unfold url.Get. destruct (decide (key = key')) as [->|Hne].
  - rewrite !lookup_insert_eq. reflexivity.
  - rewrite !lookup_insert_ne by exact Hne. reflexivity.
Qed.

Lemma Has_insert_first (q : url.Values) (key : string) (v : string)
  (vs : list string) (key' : string) :
  url.Has (<[key := v :: vs]> q) key' = url.Has (<[key := [v]]> q) key'.
Proof.
  unfold url.Has. destruct (decide (key = key')) as [->|Hne].
  - rewrite !lookup_insert_eq. reflexivity.
  - rewrite !lookup_insert_ne by exact Hne. reflexivity.
Qed.

(** X20.  Of a parameter that is given several times, only the first value
    counts: the decoder and the endpoint behave as if the later values
    were not there, whichever the parameter. *)
Theorem first_value_only (dm : wu.DeviceMeasurement) (q : url.Values)
  (key v : string) (vs : list string) :
  wu.fromQuery Now ParseInLocation ParseFloat dm (<[key := v :: vs]> q)
  = wu.fromQuery Now ParseInLocation ParseFloat dm (<[key := [v]]> q)
  /\ wu.ServeHTTP Now ParseInLocation ParseFloat (<[key := v :: vs]> q)
     = wu.ServeHTTP Now ParseInLocation ParseFloat (<[key := [v]]> q).
Proof.
  assert (Hd : forall dm',
            wu.fromQuery Now ParseInLocation ParseFloat dm' (<[key := v :: vs]> q)
            = wu.fromQuery Now ParseInLocation ParseFloat dm' (<[key := [v]]> q)).
  { intros dm'. unfold wu.fromQuery.
    rewrite !(Get_insert_first q key v vs), !(Has_insert_first q key v vs).
    reflexivity. }
  split; [apply Hd|].
  unfold wu.ServeHTTP.
  rewrite Hd, !(Get_insert_first q key v vs), !(Has_insert_first q key v vs).
  reflexivity.
Qed.

(** X21.  [NewExporter] consults the outbound probe only when the configured
    exporter address is empty, and fails exactly when the address is empty
    and the probe fails, with the probe's error behind "could not determine
    exporter IP address: ".  The exporter it returns is not running, has
    no series and no servers yet, carries the configured resolver and DNS
    address as given, and the configured or probed exporter address. *)
Theorem NewExporter_result (c : exporter.Config) :
  (forall err, exporter.NewExporter outboundIP c = inr err
               <-> exporter.ExporterIP c = ""
                   /\ exists perr, outboundIP = inr perr
                        /\ err = "could not determine exporter IP address: " ++ perr)
  /\ (forall e, exporter.NewExporter outboundIP c = inl e ->
       exporter.running e = false
       /\ exporter.metrics e = exporter.newMetrics
       /\ exporter.dnsServer e = None /\ exporter.httpServer e = None
       /\ exporter.upstreamResolver e = exporter.UpstreamResolver c
       /\ exporter.dnsListenAddress e = exporter.DNSListenAddress c
       /\ (exporter.ExporterIP c <> "" -> exporter.exporterIP e = exporter.ExporterIP c)
       /\ (exporter.ExporterIP c = "" -> outboundIP = inl (exporter.exporterIP e))).
Proof.
  split.
  - intros err. unfold exporter.NewExporter.
    destruct (String.eqb (exporter.ExporterIP c) "") eqn:E.
    + apply String.eqb_eq in E. destruct outboundIP as [ip|perr]; split.
      * intros H. discriminate H.
      * intros (_ & perr & H & _). discriminate H.
      * intros H. injection H as <-. split; [exact E|]. exists perr. auto.
      * intros (_ & perr' & H & ->). injection H as <-. reflexivity.
    + apply String.eqb_neq in E. split.
      * intros H. discriminate H.
      * intros (H & _). contradiction.
  - intros e H. destruct (NewExporter_inv outboundIP c e H) as (ip & -> & H1 & H2).
    cbn. repeat split; assumption.
Qed.

(** X22.  From the request to the series.  When the endpoint started the
    callback, which it does only with a 200 answer and with the request's
    station ID, and the station ID is valid UTF-8 and the rain total not
    negative, the sink returns, and under the station ID the temperature
    gauge holds the Celsius value of the parsed [tempf], the humidity gauge
    the parsed [humidity] divided by 100, the rainfall counter the
    millimeters of the parsed [dailyrainin]; and a [tempf] that does not
    parse leaves the temperature gauge set at zero, not absent. *)
Theorem submission_to_series (q : url.Values) (m : exporter.Metrics)
  (id : string) (dm : wu.DeviceMeasurement) :
  wu.callbacks (wu.ServeHTTP Now ParseInLocation ParseFloat q) = [(id, dm)] ->
  utf8.ValidString id = true ->
  sinkAccepts dm ->
  exists m', exporter.handleWUSubmission m id dm = inl m'
  /\ id = url.Get q "ID"
  /\ wu.status (wu.ServeHTTP Now ParseInLocation ParseFloat q) = Some 200%Z
  /\ (forall f, ParseFloat (url.Get q "tempf") 32 = (f, None) ->
      exporter.Temperature m' !! id = Some (F64.of_f32 (wu.ftoc (F32.of_f64 f))))
  /\ (forall f, ParseFloat (url.Get q "humidity") 32 = (f, None) ->
      exporter.Humidity m' !! id
      = Some (F64.of_f32 (F32.div (F32.of_f64 f) (F32.of_ratio 100 1))))
  /\ (forall f, ParseFloat (url.Get q "dailyrainin") 32 = (f, None) ->
      exporter.Rain m' !! id
      = Some (F64.add F64.zero (F64.of_f32 (wu.inToMM (F32.of_f64 f)))))
  /\ (is_Some (snd (ParseFloat (url.Get q "tempf") 32)) ->
      exporter.Temperature m' !! id = Some (F64.of_f32 F32.zero)).
Proof.
  intros Hcb Hid Hacc.
  destruct (ServeHTTP_cases Now ParseInLocation ParseFloat q) as [H|(dm' & Hdm & H)];
    rewrite H in Hcb |- *; [discriminate Hcb|].
  cbn in Hcb. injection Hcb as <- <-.
  assert (Hok : snd (wu.fromQuery Now ParseInLocation ParseFloat wu.zeroDM q) = None)
    by (rewrite Hdm; reflexivity).
  assert (Hfst : fst (wu.fromQuery Now ParseInLocation ParseFloat wu.zeroDM q) = dm')
    by (rewrite Hdm; reflexivity).
  rewrite (handleWUSubmission_ok m _ dm' Hid Hacc).
  eexists. split; [reflexivity|].
  cbn [exporter.Temperature exporter.Humidity exporter.Rain].
  unfold exporter.hundred. rewrite !lookup_insert_eq.
  split; [reflexivity|]. split; [reflexivity|].
  split; [|split; [|split]].
  - intros f Hf.
    pose proof (fromQuery_field_of_parsed Now ParseInLocation ParseFloat wu.zeroDM q
                  wu.tempf f Hok Hf) as Hp.
    rewrite Hfst in Hp. cbn in Hp. rewrite Hp. reflexivity.
  - intros f Hf.
    pose proof (fromQuery_field_of_parsed Now ParseInLocation ParseFloat wu.zeroDM q
                  wu.humidity f Hok Hf) as Hp.
    rewrite Hfst in Hp. cbn in Hp. rewrite Hp. reflexivity.
  - intros f Hf.
    pose proof (fromQuery_field_of_parsed Now ParseInLocation ParseFloat wu.zeroDM q
                  wu.dailyrainin f Hok Hf) as Hp.
    rewrite Hfst in Hp. cbn in Hp. rewrite Hp. reflexivity.
  - intros Hbad.
    pose proof (fromQuery_field_frame Now ParseInLocation ParseFloat wu.tempf
                  wu.zeroDM q Hbad) as Hp.
    rewrite Hfst in Hp. cbn in Hp. rewrite Hp. reflexivity.
Qed.
End pipeline.

(** X21 at a configuration without exporter address and a probe without
    network. *)
Lemma NewExporter_result_witness :
  exporter.NewExporter (inr "dial udp 8.8.8.8:80: connect: network is unreachable")
    exampleConfig
  = inr ("could not determine exporter IP address: "
         ++ "dial udp 8.8.8.8:80: connect: network is unreachable")
  /\ (forall e, exporter.NewExporter exampleProbe exampleConfig = inl e ->
       exporter.exporterIP e = "192.168.1.10").
Proof.
  split.
  - apply (proj1 (NewExporter_result _ exampleConfig)).
    split; [reflexivity|]. eexists. split; reflexivity.
  - intros e He.
    destruct (proj2 (NewExporter_result exampleProbe exampleConfig) e He)
      as (_ & _ & _ & _ & _ & _ & _ & Hip).
    specialize (Hip eq_refl). injection Hip as <-. reflexivity.
Defined.

(** X22 at the test query with a rain total of 1.0 inch: the station's
    temperature gauge reads 17.5 and its rainfall counter the [float32]
    25.4. *)
Lemma submission_to_series_witness :
  exists m',
    exporter.handleWUSubmission exporter.newMetrics "test"
      (fst (Examples.decode (Examples.rainQuery "1.0"))) = inl m'
    /\ exporter.Temperature m' !! "test" = Some (F64.of_f32 (F32.of_ratio 175 10))
    /\ exporter.Rain m' !! "test" = Some (F64.of_f32 (F32.of_ratio 254 10)).
Proof.
  destruct (submission_to_series Examples.now GoTime.ParseInLocation strconv.ParseFloat
              (Examples.rainQuery "1.0") exporter.newMetrics "test"
              (fst (Examples.decode (Examples.rainQuery "1.0")))
              ltac:(vm_compute; reflexivity) ltac:(vm_compute; reflexivity)
              ltac:(vm_compute; reflexivity))
    as (m' & Hm & _ & _ & Htemp & _ & Hrain & _).
  exists m'. split; [exact Hm|]. split.
  - rewrite (Htemp (fst (strconv.ParseFloat "63.5" 32)) ltac:(vm_compute; reflexivity)).
    vm_compute. reflexivity.
  - rewrite (Hrain (fst (strconv.ParseFloat "1.0" 32)) ltac:(vm_compute; reflexivity)).
    vm_compute. reflexivity.
Defined.
